(** * Geo-Guardian backend: zone model, REST handlers and alert relay

    A shallow embedding of [models/Zone.js], [routes/zoneRoutes.js] and
    [socket/socketHandler.js].

    - JavaScript numbers are IEEE-754 binary64 values: Rocq's primitive
      [float], with [=?] for [===] on numbers.
    - A request body, query parameter or socket payload is a JavaScript
      value ([Js.value]).
    - The MongoDB collection is a finite map from [_id] to document.
    - What Mongoose, the MongoDB server and the ECMAScript runtime decide
      (text-to-number parsing, trimming, the ObjectId cast, the 2dsphere
      index, the evaluation of geospatial filters) is collected in the
      [Platform] interface; every theorem holds for every platform.
    - The clock ([new Date().toISOString()]) and the generated [_id] are
      arguments of the handlers that use them.

    Outside the model: loss of the database connection, the rate limiter
    and the other middleware of [index.js], and request bodies whose
    [geometry] is not an object with arrays of numbers (Mongoose's cast
    turns those away with a ValidationError before the validator runs). *)

From Stdlib Require Import Floats ZArith Lia Ascii String.
From Stdlib Require Uint63.
From stdpp Require Import gmap strings list pretty.

Open Scope string_scope.
Open Scope list_scope.
Set Warnings "-register-all,-inexact-float".

(** ** Exceptions *)

Record error := Error { err_name : string; err_message : string }.

Inductive outcome (A : Type) : Type :=
| Ok (a : A)
| Throw (e : error).
Arguments Ok {A} a.
Arguments Throw {A} e.

(** ** JavaScript values *)

Module Js.

Inductive value : Type :=
| VUndefined
| VNull
| VBool (b : bool)
| VNum (f : float)
| VStr (s : string)
| VArr (items : list value)
| VObj (fields : list (string * value)).

Definition is_nan (f : float) : bool := negb (f =? f)%float.

(** ToBoolean: [undefined], [null], [false], [0], [-0], [NaN] and the
    empty string are falsy; everything else, objects and arrays
    included, is truthy. *)
Definition truthy (v : value) : bool :=
  match v with
  | VUndefined | VNull => false
  | VBool b => b
  | VNum f => negb ((f =? 0)%float || is_nan f)
  | VStr s => negb (String.eqb s "")
  | VArr _ | VObj _ => true
  end.

(** [a || b] *)
Definition or_else (a b : value) : value := if truthy a then a else b.

Definition typeof (v : value) : string :=
  match v with
  | VUndefined => "undefined"
  | VNull => "object"
  | VBool _ => "boolean"
  | VNum _ => "number"
  | VStr _ => "string"
  | VArr _ | VObj _ => "object"
  end.

Definition str_of (v : value) : string :=
  match v with VStr s => s | _ => "" end.

Fixpoint assoc (k : string) (fields : list (string * value)) : value :=
  match fields with
  | [] => VUndefined
  | (k', v) :: rest => if String.eqb k k' then v else assoc k rest
  end.

(** [v.k] for a key that is no built-in property ([message],
    [location]): reading from [undefined] or [null] throws a TypeError,
    reading from a primitive or an array gives [undefined]. *)
Definition get (v : value) (k : string) : outcome value :=
  match v with
  | VUndefined | VNull =>
      Throw (Error "TypeError" ("Cannot read properties of " +:+
               (match v with VNull => "null" | _ => "undefined" end) +:+
               " (reading '" +:+ k +:+ "')"))
  | VObj fields => Ok (assoc k fields)
  | _ => Ok VUndefined
  end.

(** [a === b] where each side is a number or [undefined] (an index past
    the end of an array). *)
Definition strict_eq (a b : option float) : bool :=
  match a, b with
  | None, None => true
  | Some x, Some y => (x =? y)%float
  | _, _ => false
  end.

(** ToNumber of an array element: a missing element is [undefined],
    which arithmetic turns into NaN. *)
Definition to_number (a : option float) : float :=
  match a with Some x => x | None => nan end.

End Js.
Import Js.

(** ** models/Zone.js *)

Abbreviation ObjectId := N.

(** [coordinates : [[[Number]]]] *)
Abbreviation vertex := (list float).
Abbreviation ring := (list (list float)).

Record Geometry := {
  type : value;
  coordinates : option (list ring)
}.

Module Zone.

Record doc := {
  _id : ObjectId;
  name : string;
  geometry : Geometry;
  properties : gmap string value;
  createdAt : string;
  updatedAt : string
}.

(** [geometry.coordinates.validate.validator] (Zone.js, lines 18-27):
    [coords] is [null]/[undefined] or an array of rings; an index past
    the end of an array reads [undefined]. *)
Definition validator (coords : option (list ring)) : bool :=
  match coords with
  | None => false
  | Some cs =>
      match cs !! 0%nat with
      | None => false
      | Some r =>
          if (length r <? 4)%nat then false
          else
            match r !! 0%nat, r !! (length r - 1)%nat with
            | Some first, Some last =>
                strict_eq (first !! 0%nat) (last !! 0%nat)
                && strict_eq (first !! 1%nat) (last !! 1%nat)
            | _, _ => false
            end
      end
  end.

Definition validator_message : string :=
  "Polygon must have at least 3 points and be closed".

(** [geometry.type]: required, [enum: ['Polygon']] *)
Definition type_valid (t : value) : bool :=
  match t with VStr s => String.eqb s "Polygon" | _ => false end.

(** Document validation, run by [save] before anything is written.
    Mongoose reports all failing paths in one ValidationError; the first
    one is kept here, and the wording of its message is indicative. *)
Definition validate (d : doc) : outcome unit :=
  if negb (type_valid (type (geometry d))) then
    Throw (Error "ValidationError"
             "Zone validation failed: geometry.type: not a valid enum value")
  else if negb (validator (coordinates (geometry d))) then
    Throw (Error "ValidationError"
             ("Zone validation failed: geometry.coordinates: " +:+ validator_message))
  else Ok ().

(** The summand of the [area] loop (Zone.js, lines 45-52) at index [i]:
    [coords[i][0] * coords[i+1][1] - coords[i+1][0] * coords[i][1]]. *)
Definition cross (p q : vertex) : float :=
  (to_number (p !! 0%nat) * to_number (q !! 1%nat)
   - to_number (q !! 0%nat) * to_number (p !! 1%nat))%float.

Definition at_index (coords : ring) (i : nat) : vertex :=
  default [] (coords !! i).

(** [for (let i = ...; i < coords.length - 1; i++) area += ...], with
    [todo] iterations left. *)
Fixpoint area_loop (coords : ring) (i todo : nat) (area : float) : float :=
  match todo with
  | O => area
  | S todo' =>
      area_loop coords (S i) todo'
        (area + cross (at_index coords i) (at_index coords (S i)))%float
  end.

Definition polygonArea (coords : ring) : float :=
  abs (area_loop coords 0 (length coords - 1) 0 / 2)%float.

(** [zoneSchema.virtual('area')] *)
Definition area (d : doc) : outcome float :=
  match coordinates (geometry d) with
  | Some (coords :: _) => Ok (polygonArea coords)
  | _ => Throw (Error "TypeError" "Cannot read properties of undefined (reading 'length')")
  end.

End Zone.

(** ** The platform

    The collection maps [_id] to document.  A geospatial filter is
    evaluated by the MongoDB server, which either answers with documents
    or raises (a point that is no valid GeoJSON position, for one); the
    2dsphere index likewise decides whether a geometry can be written. *)

Abbreviation Store := (gmap ObjectId Zone.doc).

Inductive geo_filter : Type :=
| FAll
| FNear (lng lat maxDistance : float)
| FIntersectsPoint (lng lat : float)
| FWithinBox (minLng minLat maxLng maxLat : float).

Class Platform := {
  (** [process.env.NODE_ENV === 'production'] *)
  isProduction : bool;
  (** [String.prototype.trim] *)
  trim : string -> string;
  (** the global [parseFloat] and [parseInt], on any argument *)
  parseFloat : value -> float;
  parseInt : value -> float;
  (** Mongoose's cast of a path parameter to an ObjectId *)
  castObjectId : string -> option ObjectId;
  (** whether the 2dsphere index takes a geometry *)
  indexable : Geometry -> bool;
  (** the server's answer to [Zone.find(filter)] on a collection *)
  runFind : geo_filter -> Store -> outcome (list Zone.doc)
}.

(** ** What Mongoose offers on the model *)

Module Collection.
Section WithPlatform.
Context {P : Platform}.

(** [new Zone({ name, geometry })]: the [trim] setter runs on [name],
    [properties] takes the schema default, and an absent [_id] is
    generated. *)
Definition new (newId : ObjectId) (now : string) (nm : string) (g : Geometry)
  : Zone.doc :=
  {| Zone._id := newId; Zone.name := trim nm; Zone.geometry := g;
     Zone.properties := ∅; Zone.createdAt := now; Zone.updatedAt := now |}.

(** [doc.save()]: validation first; then the insert, which the server
    refuses when the index cannot take the geometry or the key exists. *)
Definition save (d : Zone.doc) (st : Store) : Store * outcome unit :=
  match Zone.validate d with
  | Throw e => (st, Throw e)
  | Ok _ =>
      if negb (indexable (Zone.geometry d)) then
        (st, Throw (Error "MongoServerError" "Can't extract geo keys"))
      else
        match st !! Zone._id d with
        | Some _ => (st, Throw (Error "MongoServerError" "E11000 duplicate key error"))
        | None => (<[Zone._id d := d]> st, Ok ())
        end
  end.

(** [Zone.find(filter)] *)
Definition find (f : geo_filter) (st : Store) : Store * outcome (list Zone.doc) :=
  (st, runFind f st).

(** [Zone.findByIdAndDelete(id)] *)
Definition findByIdAndDelete (id : string) (st : Store)
  : Store * outcome (option Zone.doc) :=
  match castObjectId id with
  | None => (st, Throw (Error "CastError" "Cast to ObjectId failed"))
  | Some oid =>
      match st !! oid with
      | Some z => (delete oid st, Ok (Some z))
      | None => (st, Ok None)
      end
  end.

End WithPlatform.
End Collection.

(** ** routes/zoneRoutes.js *)

Inductive payload : Type :=
| Failure (message : string) (error : option string)
| ZoneResult (message : string) (zone : Zone.doc)
| ZoneList (count : nat) (zones : list Zone.doc)
| CheckResult (isInDangerZone : bool) (dangerousZones : list Zone.doc)
    (message : string).

Definition success (p : payload) : bool :=
  match p with Failure _ _ => false | _ => true end.

Record Response := Json { status : nat; body : payload }.

Record CreateBody := {
  body_name : value;
  body_geometry : option Geometry;
  body_properties : value
}.

Record NearbyQuery := { q_lat : value; q_lng : value; q_maxDistance : value }.
Record CheckBody := { c_lat : value; c_lng : value }.
Record WithinQuery := {
  q_minLat : value; q_minLng : value; q_maxLat : value; q_maxLng : value
}.

Module Routes.
Section WithPlatform.
Context {P : Platform}.

Definition handler := Store -> Store * Response.

(** [isProduction ? 'Internal server error' : error.message] *)
Definition detail (e : error) : option string :=
  Some (if isProduction then "Internal server error" else err_message e).

(** POST /api/zones (zoneRoutes.js, lines 9-57).  [!name || !geometry] is split in two tests that
    give the same answer; a present [geometry] is an object, hence
    truthy. *)
Definition createZone (newId : ObjectId) (now : string) (b : CreateBody)
  : handler := fun st =>
  let name := body_name b in
  match body_geometry b with
  | None => (st, Json 400 (Failure "Name and geometry are required" None))
  | Some geometry =>
      if negb (truthy name) then
        (st, Json 400 (Failure "Name and geometry are required" None))
      else if negb (String.eqb (typeof name) "string")
              || (String.length (trim (str_of name)) =? 0)%nat then
        (st, Json 400 (Failure "Invalid zone name" None))
      else
        let newZone := Collection.new newId now (trim (str_of name)) geometry in
        match Collection.save newZone st with
        | (st', Ok _) =>
            (st', Json 201 (ZoneResult "Zone created successfully" newZone))
        | (st', Throw e) =>
            if String.eqb (err_name e) "ValidationError" then
              (st', Json 400 (Failure "Invalid zone data" (Some (err_message e))))
            else
              (st', Json 500 (Failure "Failed to create zone" (detail e)))
        end
  end.

(** GET /api/zones (lines 60-77) *)
Definition listZones : handler := fun st =>
  match Collection.find FAll st with
  | (st', Ok zones) => (st', Json 200 (ZoneList (length zones) zones))
  | (st', Throw e) => (st', Json 500 (Failure "Failed to fetch zones" (detail e)))
  end.

(** GET /api/zones/nearby (lines 80-117) *)
Definition nearby (q : NearbyQuery) : handler := fun st =>
  let lat := q_lat q in
  let lng := q_lng q in
  let maxDistance :=
    match q_maxDistance q with VUndefined => VNum 5000 | v => v end in
  if negb (truthy lat) || negb (truthy lng) then
    (st, Json 400 (Failure "Latitude and longitude are required" None))
  else
    match Collection.find
            (FNear (parseFloat lng) (parseFloat lat) (parseInt maxDistance)) st with
    | (st', Ok zones) => (st', Json 200 (ZoneList (length zones) zones))
    | (st', Throw e) =>
        (st', Json 500 (Failure "Failed to find nearby zones" (detail e)))
    end.

(** POST /api/zones/check (lines 120-161) *)
Definition checkLocation (b : CheckBody) : handler := fun st =>
  let lat := c_lat b in
  let lng := c_lng b in
  if negb (truthy lat) || negb (truthy lng) then
    (st, Json 400 (Failure "Latitude and longitude are required" None))
  else
    match Collection.find
            (FIntersectsPoint (parseFloat lng) (parseFloat lat)) st with
    | (st', Ok zones) =>
        let isInDangerZone := (0 <? length zones)%nat in
        (st', Json 200 (CheckResult isInDangerZone zones
           (if isInDangerZone
            then "Warning: Inside " +:+ pretty (length zones) +:+ " danger zone(s)"
            else "Location is safe")))
    | (st', Throw e) =>
        (st', Json 500 (Failure "Failed to check location" (detail e)))
    end.

(** GET /api/zones/within (lines 164-200) *)
Definition within (q : WithinQuery) : handler := fun st =>
  let minLat := q_minLat q in
  let minLng := q_minLng q in
  let maxLat := q_maxLat q in
  let maxLng := q_maxLng q in
  if negb (truthy minLat) || negb (truthy minLng)
     || negb (truthy maxLat) || negb (truthy maxLng) then
    (st, Json 400 (Failure
       "Bounding box coordinates required (minLat, minLng, maxLat, maxLng)" None))
  else
    match Collection.find
            (FWithinBox (parseFloat minLng) (parseFloat minLat)
                        (parseFloat maxLng) (parseFloat maxLat)) st with
    | (st', Ok zones) => (st', Json 200 (ZoneList (length zones) zones))
    | (st', Throw e) =>
        (st', Json 500 (Failure "Failed to find zones within area" (detail e)))
    end.

(** DELETE /api/zones/:id (lines 203-236) *)
Definition deleteZone (id : string) : handler := fun st =>
  match Collection.findByIdAndDelete id st with
  | (st', Ok None) => (st', Json 404 (Failure "Zone not found" None))
  | (st', Ok (Some deletedZone)) =>
      (st', Json 200 (ZoneResult "Zone deleted successfully" deletedZone))
  | (st', Throw e) =>
      if String.eqb (err_name e) "CastError" then
        (st', Json 400 (Failure "Invalid zone ID format" None))
      else
        (st', Json 500 (Failure "Failed to delete zone" (detail e)))
  end.

(** The router: one request, one handler. *)
Inductive request : Type :=
| PostZone (newId : ObjectId) (now : string) (b : CreateBody)
| GetZones
| GetNearby (q : NearbyQuery)
| PostCheck (b : CheckBody)
| GetWithin (q : WithinQuery)
| DeleteZone (id : string).

Definition route (r : request) : handler :=
  match r with
  | PostZone newId now b => createZone newId now b
  | GetZones => listZones
  | GetNearby q => nearby q
  | PostCheck b => checkLocation b
  | GetWithin q => within q
  | DeleteZone id => deleteZone id
  end.

(** The store after serving a sequence of requests. *)
Fixpoint serve (rs : list request) (st : Store) : Store :=
  match rs with
  | [] => st
  | r :: rs' => serve rs' (route r st).1
  end.

Definition reachable (st : Store) : Prop := exists rs, serve rs ∅ = st.

End WithPlatform.
End Routes.

(** ** socket/socketHandler.js *)

Module Socket.

Abbreviation SocketId := string.

Record admin_alert := {
  message : value;
  location : value;
  timestamp : string;
  severity : string
}.

Inductive packet : Type := Packet (event : string) (data : admin_alert).

(** The Socket.IO server: the connected sockets, each with the packets
    sent to it so far. *)
Abbreviation Server := (gmap SocketId (list packet)).

Definition connected (io : Server) (s : SocketId) : Prop := is_Some (io !! s).

(** [io.emit(event, data)]: one packet to every connected socket. *)
Definition io_emit (event : string) (data : admin_alert) (io : Server) : Server :=
  (fun sent => (sent ++ [Packet event data])%list) <$> io.

(** The event built by the [mobile_danger_alert] listener; [now] is
    [new Date().toISOString()]. *)
Definition alert_of (now : string) (data : value) : outcome admin_alert :=
  match get data "message" with
  | Throw e => Throw e
  | Ok m =>
      match get data "location" with
      | Throw e => Throw e
      | Ok l =>
          Ok {| message := or_else m (VStr "Tourist entered Danger Zone");
                location := or_else l VNull;
                timestamp := now;
                severity := "critical" |}
      end
  end.

(** [socket.on('mobile_danger_alert', (data) => io.emit('admin_alert', ...))] *)
Definition on_mobile_danger_alert (now : string) (data : value) (io : Server)
  : outcome Server :=
  match alert_of now data with
  | Throw e => Throw e
  | Ok a => Ok (io_emit "admin_alert" a io)
  end.

(** An event arriving from socket [s].  Only connected sockets have
    listeners; the [error] listener logs and nothing else is listened
    for. *)
Definition receive (s : SocketId) (event : string) (now : string)
    (data : value) (io : Server) : outcome Server :=
  match io !! s with
  | None => Ok io
  | Some _ =>
      if String.eqb event "mobile_danger_alert"
      then on_mobile_danger_alert now data io
      else Ok io
  end.

End Socket.

(** ** A test double for the platform

    A small stand-in used to run the handlers on concrete requests.  It
    reads plain decimal texts ([-12.5], no exponent), takes an ObjectId to
    be 24 hexadecimal digits, and evaluates filters in the plane, in key
    order.  Nothing proved for all platforms depends on it. *)

Module Double.

Definition code (c : ascii) : N := N_of_ascii c.

Definition is_white (c : ascii) : bool :=
  (code c =? 32)%N || ((9 <=? code c)%N && (code c <=? 13)%N).

Fixpoint trim_start (s : string) : string :=
  match s with
  | String c s' => if is_white c then trim_start s' else s
  | EmptyString => EmptyString
  end.

Definition trim (s : string) : string :=
  String.rev (trim_start (String.rev (trim_start s))).

Definition digit (c : ascii) : option N :=
  if (48 <=? code c)%N && (code c <=? 57)%N then Some (code c - 48)%N else None.

(** Reads a run of digits: the number so far, how many were read, and
    the rest of the text. *)
Fixpoint digits (s : string) (acc : N) (n : nat) : N * nat * string :=
  match s with
  | String c s' =>
      match digit c with
      | Some d => digits s' (10 * acc + d)%N (S n)
      | None => (acc, n, s)
      end
  | EmptyString => (acc, n, s)
  end.

Definition of_N (n : N) : float := of_uint63 (Uint63.of_Z (Z.of_N n)).

Definition signed (s : string) : bool * string :=
  match s with
  | String "-" s' => (true, s')
  | String "+" s' => (false, s')
  | _ => (false, s)
  end.

Definition parse_decimal (s : string) : float :=
  let '(neg, s1) := signed (trim_start s) in
  let '(whole, n1, s2) := digits s1 0 0 in
  let '(all, n2) :=
    match s2 with
    | String "." s3 => let '(m, k, _) := digits s3 whole 0 in (m, k)
    | _ => (whole, 0%nat)
    end in
  if (n1 + n2 =? 0)%nat then nan
  else
    let x := (of_N all / of_N (10 ^ N.of_nat n2))%float in
    if neg then (- x)%float else x.

Definition parse_integer (s : string) : float :=
  let '(neg, s1) := signed (trim_start s) in
  let '(whole, n1, _) := digits s1 0 0 in
  if (n1 =? 0)%nat then nan
  else if neg then (- of_N whole)%float else of_N whole.

Definition parseFloat (v : value) : float :=
  match v with
  | VNum f => if (f =? 0)%float then 0%float else f
  | VStr s => parse_decimal s
  | _ => nan
  end.

(** Of the numbers, only the default [5000] ever reaches [parseInt]. *)
Definition parseInt (v : value) : float :=
  match v with
  | VNum f => f
  | VStr s => parse_integer s
  | _ => nan
  end.

Definition hex_digit (c : ascii) : option N :=
  if (48 <=? code c)%N && (code c <=? 57)%N then Some (code c - 48)%N
  else if (97 <=? code c)%N && (code c <=? 102)%N then Some (code c - 87)%N
  else if (65 <=? code c)%N && (code c <=? 70)%N then Some (code c - 55)%N
  else None.

Fixpoint read_hex (s : string) (acc : N) : option N :=
  match s with
  | EmptyString => Some acc
  | String c s' =>
      match hex_digit c with
      | Some d => read_hex s' (16 * acc + d)%N
      | None => None
      end
  end.

Definition castObjectId (s : string) : option ObjectId :=
  if (String.length s =? 24)%nat then read_hex s 0 else None.

Definition position_ok (lng lat : float) : bool :=
  ((-180 <=? lng) && (lng <=? 180) && (-90 <=? lat) && (lat <=? 90))%float.

Definition vertex_ok (v : vertex) : bool :=
  match v with
  | [lng; lat] => position_ok lng lat
  | _ => false
  end.

Definition indexable (g : Geometry) : bool :=
  match coordinates g with
  | Some (r :: _) => forallb vertex_ok r
  | _ => false
  end.

Definition x_of (v : vertex) : float := to_number (v !! 0%nat).
Definition y_of (v : vertex) : float := to_number (v !! 1%nat).

(** Even-odd ray casting over the outer ring. *)
Definition crosses (x y : float) (p q : vertex) : bool :=
  (negb (Bool.eqb (y <? y_of p) (y <? y_of q))
   && (x <? (x_of q - x_of p) * (y - y_of p) / (y_of q - y_of p) + x_of p))%float.

Fixpoint ray_cast (x y : float) (r : ring) (inside : bool) : bool :=
  match r with
  | p :: (q :: _) as r' => ray_cast x y r' (xorb inside (crosses x y p q))
  | _ => inside
  end.

Definition outer (d : Zone.doc) : ring :=
  match coordinates (Zone.geometry d) with
  | Some (r :: _) => r
  | _ => []
  end.

Definition in_box (minLng minLat maxLng maxLat : float) (v : vertex) : bool :=
  ((minLng <=? x_of v) && (x_of v <=? maxLng)
   && (minLat <=? y_of v) && (y_of v <=? maxLat))%float.

(** Metres per degree, for a planar reading of [$maxDistance]. *)
Definition metres_per_degree : float := 111320%float.

Definition close_to (lng lat maxDistance : float) (v : vertex) : bool :=
  (PrimFloat.sqrt ((x_of v - lng) * (x_of v - lng) + (y_of v - lat) * (y_of v - lat))
     * metres_per_degree <=? maxDistance)%float.

Definition matches (f : geo_filter) (d : Zone.doc) : bool :=
  match f with
  | FAll => true
  | FNear lng lat maxDistance => existsb (close_to lng lat maxDistance) (outer d)
  | FIntersectsPoint lng lat => ray_cast lng lat (outer d) false
  | FWithinBox a b c e => forallb (in_box a b c e) (outer d)
  end.

Definition well_formed (f : geo_filter) : bool :=
  match f with
  | FAll => true
  | FNear lng lat maxDistance => position_ok lng lat && (0 <=? maxDistance)%float
  | FIntersectsPoint lng lat => position_ok lng lat
  | FWithinBox a b c e => position_ok a b && position_ok c e
  end.

Definition runFind (f : geo_filter) (st : Store) : outcome (list Zone.doc) :=
  if well_formed f then Ok (filter (fun d => matches f d = true) (map_to_list st).*2)
  else Throw (Error "MongoServerError" "invalid geospatial query").

Definition platform : Platform :=
  Build_Platform false trim parseFloat parseInt castObjectId indexable runFind.

End Double.

(** ** Vocabulary of the specification *)

(** Two vertices agree in both coordinates, by [===]. *)
Definition same_point (p q : vertex) : bool :=
  strict_eq (p !! 0%nat) (q !! 0%nat) && strict_eq (p !! 1%nat) (q !! 1%nat).

(** A ring is closed when its first vertex equals its last one. *)
Definition closed (r : ring) : bool :=
  match head r, last r with
  | Some p, Some q => same_point p q
  | _, _ => false
  end.

(** The outer ring of a creation request. *)
Definition outer_ring (b : CreateBody) : option ring :=
  match body_geometry b with
  | Some g =>
      match coordinates g with
      | Some cs => cs !! 0%nat
      | None => None
      end
  | None => None
  end.

(** A name the handler lets through: a string that is not blank. *)
Definition name_ok {P : Platform} (name : value) : bool :=
  truthy name && String.eqb (typeof name) "string"
  && negb (String.length (trim (str_of name)) =? 0)%nat.

(** The number zero, of either sign. *)
Definition is_zero (v : value) : bool :=
  match v with VNum f => (f =? 0)%float | _ => false end.

(** What Express's query parser hands over for a parameter: nothing, a
    text, or (for repeated and bracketed parameters) an array or object. *)
Definition from_query (v : value) : Prop :=
  match v with
  | VUndefined | VStr _ | VArr _ | VObj _ => True
  | _ => False
  end.

(** A query parameter that is absent or empty. *)
Definition missing (v : value) : bool :=
  match v with
  | VUndefined => true
  | VStr s => String.eqb s ""
  | _ => false
  end.

(** A parameter is numeric when [parseFloat] reads a number from it. *)
Definition numeric {P : Platform} (v : value) : bool := negb (is_nan (parseFloat v)).

Definition absent_or_non_numeric {P : Platform} (v : value) : bool :=
  match v with VUndefined => true | _ => negb (numeric v) end.

(** The filter [nearby] hands to [Zone.find]. *)
Definition near_filter {P : Platform} (q : NearbyQuery) : geo_filter :=
  FNear (parseFloat (q_lng q)) (parseFloat (q_lat q))
    (parseInt (match q_maxDistance q with VUndefined => VNum 5000 | v => v end)).

(** The shoelace formula: half the sum, over consecutive vertices, of
    [x_i * y_(i+1) - x_(i+1) * y_i], in absolute value. *)
Definition consecutive (r : ring) : list (vertex * vertex) := zip r (tail r).

Definition shoelace_sum (r : ring) : float :=
  fold_left (fun s pq => (s + Zone.cross pq.1 pq.2)%float) (consecutive r) 0%float.

Definition shoelace (r : ring) : float := abs (shoelace_sum r / 2)%float.

Definition sentinel : value := VStr "Tourist entered Danger Zone".

(** What a payload carries under a key: [undefined] when it is no object
    or has no such key. *)
Definition carried (data : value) (k : string) : value :=
  match data with VObj fields => assoc k fields | _ => VUndefined end.

(** The event the listener builds from a payload it can read. *)
Definition normalised (now : string) (data : value) : Socket.admin_alert :=
  {| Socket.message := or_else (carried data "message") sentinel;
     Socket.location := or_else (carried data "location") VNull;
     Socket.timestamp := now;
     Socket.severity := "critical" |}.

(** ** Four sentences of the specification, as written *)

(** Alerts go to every connection but the sender. *)
Definition fans_out_to_others_only : Prop :=
  forall (io : Socket.Server) (s : Socket.SocketId) (now : string) (data : value),
    Socket.connected io s ->
    exists a io',
      Socket.receive s "mobile_danger_alert" now data io = Ok io'
      /\ (forall t sent, t <> s -> io !! t = Some sent ->
            io' !! t = Some (sent ++ [Socket.Packet "admin_alert" a])%list)
      /\ io' !! s = io !! s.

(** [nearby] answers 400 exactly for absent or non-numeric coordinates,
    and produces a result otherwise. *)
Definition nearby_rejects_non_numeric : Prop :=
  forall (P : Platform) (q : NearbyQuery) (st : Store),
    (status (Routes.nearby q st).2 = 400%nat
     <-> absent_or_non_numeric (q_lat q) = true
         \/ absent_or_non_numeric (q_lng q) = true)
    /\ (absent_or_non_numeric (q_lat q) = false ->
        absent_or_non_numeric (q_lng q) = false ->
        status (Routes.nearby q st).2 = 200%nat).

(** Every payload is published, with the given message unless it is
    absent and the given location unless it is missing. *)
Definition publishes_whatever_the_shape : Prop :=
  forall (now : string) (data : value) (io : Socket.Server),
    exists a,
      Socket.on_mobile_danger_alert now data io
      = Ok (Socket.io_emit "admin_alert" a io)
      /\ Socket.message a = match carried data "message" with
                            | VUndefined => sentinel
                            | given => given
                            end
      /\ Socket.location a = match carried data "location" with
                             | VUndefined => VNull
                             | given => given
                             end
      /\ Socket.timestamp a = now
      /\ Socket.severity a = "critical".

(** The area is the shoelace value and is at least zero. *)
Definition area_is_shoelace_and_at_least_zero : Prop :=
  forall r : ring,
    Zone.polygonArea r = shoelace r /\ (0 <=? Zone.polygonArea r)%float = true.

(** ** Data for the examples *)

Module Examples.

(** The unit square of the specification's scenario, and the same ring
    with its closing vertex left off. *)
Definition square : ring := [[0; 0]; [1; 0]; [1; 1]; [0; 1]; [0; 0]]%float.
Definition open_square : ring := [[0; 0]; [1; 0]; [1; 1]; [0; 1]]%float.

(** A closed ring of four vertices whose products overflow. *)
Definition far_ring : ring :=
  [[1e200; 1e200]; [1e200; 1e200]; [1e200; 1e200]; [1e200; 1e200]]%float.

Definition polygon (r : ring) : Geometry :=
  {| type := VStr "Polygon"; coordinates := Some [r] |}.

Definition zone_a (r : ring) : CreateBody :=
  {| body_name := VStr "Zone A";
     body_geometry := Some (polygon r);
     body_properties := VObj [("risk", VStr "high")] |}.

Definition id_text : string := "507f1f77bcf86cd799439011".
Definition id_a : ObjectId := 24912482966938930280208240657%N.
Definition created_at : string := "2026-02-27T10:30:00.000Z".

Definition stored_a : Zone.doc :=
  {| Zone._id := id_a; Zone.name := "Zone A"; Zone.geometry := polygon square;
     Zone.properties := ∅; Zone.createdAt := created_at;
     Zone.updatedAt := created_at |}.

Definition one_zone : Store := {[ id_a := stored_a ]}.

(** Two connected sockets with nothing sent yet, and the alert of the
    specification's scenario. *)
Definition two_sockets : Socket.Server := {[ "mobile-1" := []; "admin-1" := [] ]}.

Definition test_alert : value :=
  VObj [("message", VStr "test");
        ("location", VObj [("lat", VNum 1); ("lng", VNum 1)])].

Definition empty_message : value := VObj [("message", VStr "")].

(** The README's [nearby] request. *)
Definition readme_nearby : NearbyQuery :=
  {| q_lat := VStr "12.9716"; q_lng := VStr "77.5946"; q_maxDistance := VStr "5000" |}.

End Examples.

(** ** index.js: the in-memory rate limiter (lines 62-103)

    [requestCounts] is a Map from [req.ip] to a record; [Date.now()] is a
    whole number of milliseconds and is an argument of the middleware and
    of the cleanup timer's callback. *)

Module RateLimit.

Record record := { count : nat; resetTime : Z }.

Abbreviation Counts := (gmap string record).

Definition RATE_LIMIT_WINDOW : Z := 60000.

Definition too_many : Response :=
  Json 429 (Failure "Too many requests. Please try again later." None).

Inductive tick : Type :=
| Request (ip : string) (now : Z)
| Sweep (now : Z).

Section WithPlatform.
Context {P : Platform}.

Definition MAX_REQUESTS : nat := if isProduction then 100%nat else 1000%nat.

(** The middleware; [None] stands for [next()]. *)
Definition middleware (ip : string) (now : Z) (requestCounts : Counts)
  : Counts * option Response :=
  match requestCounts !! ip with
  | None =>
      (<[ip := {| count := 1; resetTime := now + RATE_LIMIT_WINDOW |}]> requestCounts,
       None)
  | Some record =>
      if (resetTime record <? now)%Z then
        (<[ip := {| count := 1; resetTime := now + RATE_LIMIT_WINDOW |}]> requestCounts,
         None)
      else if (MAX_REQUESTS <=? count record)%nat then
        (requestCounts, Some too_many)
      else
        (<[ip := {| count := S (count record); resetTime := resetTime record |}]>
           requestCounts,
         None)
  end.

(** The callback of the five-minute timer: records whose window is over
    are deleted. *)
Definition cleanup (now : Z) (requestCounts : Counts) : Counts :=
  filter (fun kv => ~ (resetTime kv.2 < now)%Z) requestCounts.

(** Requests of one address, one after the other, with their verdicts. *)
Fixpoint burst (ip : string) (times : list Z) (requestCounts : Counts)
  : Counts * list (option Response) :=
  match times with
  | [] => (requestCounts, [])
  | now :: later =>
      let '(m, v) := middleware ip now requestCounts in
      let '(m', vs) := burst ip later m in
      (m', v :: vs)
  end.

(** The map after a sequence of requests and timer ticks. *)
Definition step (e : tick) (requestCounts : Counts) : Counts :=
  match e with
  | Request ip now => (middleware ip now requestCounts).1
  | Sweep now => cleanup now requestCounts
  end.

Fixpoint run (es : list tick) (requestCounts : Counts) : Counts :=
  match es with
  | [] => requestCounts
  | e :: es' => run es' (step e requestCounts)
  end.

End WithPlatform.
End RateLimit.

(** ** index.js: connecting to the database (lines 105-125)

    [attempt k] tells how the [k]-th call of [mongoose.connect] ends:
    [None] when it resolves, the error message when it rejects.  The
    function is described by what it does, in order. *)

Module Startup.

Inductive effect : Type :=
| Connect (resolved : bool)
| LogError (text : string)
| Sleep (ms : Z)
| Exit (code : Z).

Fixpoint connectDB (retries : nat) (attempt : nat -> option string) (k : nat)
  : list effect :=
  match attempt k with
  | None => [Connect true]
  | Some err_message =>
      Connect false
      :: LogError ("MongoDB Connection Error: " +:+ err_message)
      :: match retries with
         | S retries' => Sleep 5000 :: connectDB retries' attempt (S k)
         | O => [LogError "Failed to connect to MongoDB after multiple attempts";
                 Exit 1]
         end
  end.

(** [connectDB()], with the default [retries = 5]. *)
Definition start (attempt : nat -> option string) : list effect :=
  connectDB 5 attempt 0.

Fixpoint attempts (t : list effect) : nat :=
  match t with
  | [] => 0%nat
  | Connect _ :: t' => S (attempts t')
  | _ :: t' => attempts t'
  end.

Fixpoint slept (t : list effect) : Z :=
  match t with
  | [] => 0
  | Sleep ms :: t' => ms + slept t'
  | _ :: t' => slept t'
  end.

End Startup.

(** ** index.js: the health probe (lines 147-169)

    The handler fills in an object step by step; [ping] is how
    [mongoose.connection.db.admin().ping()] ends. *)

Module Health.




End Health.

(** ** A run of inbound socket events

    A listener that throws has emitted nothing, so the sockets and what
    was sent to them are as before. *)

Module Traffic.





End Traffic.

(** ** More data for the examples *)

Module MoreExamples.

(** The double, run in production mode. *)
Definition production : Platform :=
  Build_Platform true Double.trim Double.parseFloat Double.parseInt
    Double.castObjectId Double.indexable Double.runFind.

(** A database that comes up at the third attempt, and one that never
    does. *)
Definition third_time_lucky (k : nat) : option string :=
  if (k <? 2)%nat then Some "ECONNREFUSED" else None.

Definition never_up (k : nat) : option string := Some "ECONNREFUSED".

(** One record, ten requests into a window that ends at 60000. *)
Definition busy : RateLimit.Counts :=
  {[ "10.0.0.1" := {| RateLimit.count := 10; RateLimit.resetTime := 60000 |} ]}.

(** A record at the production limit. *)
Definition at_limit : RateLimit.Counts :=
  {[ "10.0.0.1" := {| RateLimit.count := 100; RateLimit.resetTime := 60000 |} ]}.

Definition bounding_box : WithinQuery :=
  {| q_minLat := VStr "0"; q_minLng := VStr "0";
     q_maxLat := VStr "2"; q_maxLng := VStr "2" |}.


(** A [nearby] request whose latitude is no number. *)
Definition text_query : NearbyQuery :=
  {| q_lat := VStr "abc"; q_lng := VStr "1"; q_maxDistance := VUndefined |}.

(** The times of a hundred requests, five milliseconds into a window. *)
Definition flood : list Z := replicate 100 5%Z.

(** Requests of two other addresses. *)
Definition neighbours : list RateLimit.tick :=
  [RateLimit.Request "10.0.0.2" 5; RateLimit.Request "10.0.0.3" 7].

End MoreExamples.

(** * Properties *)

(** ** The coordinates validator *)

Lemma validator_outer_ring (cs : list ring) (r : ring) :
  cs !! 0%nat = Some r ->
  Zone.validator (Some cs) = (4 <=? length r)%nat && closed r.
Proof.
  intros Hr. unfold Zone.validator, closed. rewrite Hr.
  rewrite head_lookup, last_lookup.
  replace (Init.Nat.pred (length r)) with (length r - 1)%nat by lia.
  destruct (Nat.ltb_spec (length r) 4) as [Hlt|Hge].
  - replace (4 <=? length r)%nat with false; [done|].
    symmetry. apply Nat.leb_gt. lia.
  - replace (4 <=? length r)%nat with true by (symmetry; apply Nat.leb_le; lia).
    simpl. unfold same_point.
    destruct (r !! 0%nat), (r !! (length r - 1)%nat); reflexivity.
Qed.

Lemma validator_rejects (cs : list ring) (r : ring) :
  cs !! 0%nat = Some r ->
  (length r < 4)%nat \/ closed r = false ->
  Zone.validator (Some cs) = false.
Proof.
  intros Hr Hbad. rewrite (validator_outer_ring cs r Hr).
  destruct Hbad as [Hlt|Hopen].
  - replace (4 <=? length r)%nat with false; [done|].
    symmetry. apply Nat.leb_gt. lia.
  - rewrite Hopen. apply andb_false_r.
Qed.

Lemma validator_accepts (cs : list ring) (r : ring) :
  cs !! 0%nat = Some r ->
  (4 <= length r)%nat -> closed r = true ->
  Zone.validator (Some cs) = true.
Proof.
  intros Hr Hlen Hclosed. rewrite (validator_outer_ring cs r Hr), Hclosed.
  rewrite andb_true_r. apply Nat.leb_le. lia.
Qed.

(** ** Creating zones *)

Section ZoneStore.
Context {P : Platform}.

(** [save] writes nothing unless it succeeds, and when it succeeds it
    adds exactly the document, under a key that was free. *)
Lemma save_throw_keeps_store (d : Zone.doc) (st st' : Store) (e : error) :
  Collection.save d st = (st', Throw e) -> st' = st.
Proof.
  unfold Collection.save.
  destruct (Zone.validate d); [|congruence].
  destruct (negb (indexable (Zone.geometry d))); [congruence|].
  destruct (st !! Zone._id d); congruence.
Qed.

Lemma save_ok_inserts (d : Zone.doc) (st st' : Store) (u : unit) :
  Collection.save d st = (st', Ok u) ->
  st' = <[Zone._id d := d]> st /\ st !! Zone._id d = None
  /\ Zone.validator (coordinates (Zone.geometry d)) = true.
Proof.
  unfold Collection.save, Zone.validate.
  destruct (negb (Zone.type_valid _)); [congruence|].
  destruct (Zone.validator _); simpl; [|congruence].
  destruct (negb (indexable (Zone.geometry d))); [congruence|].
  destruct (st !! Zone._id d) eqn:Hfree; [congruence|].
  intros [= <-]. auto.
Qed.

Lemma save_invalid_ring (d : Zone.doc) (st : Store) :
  Zone.validator (coordinates (Zone.geometry d)) = false ->
  exists e, Collection.save d st = (st, Throw e)
            /\ err_name e = "ValidationError".
Proof.
  intros Hbad. unfold Collection.save, Zone.validate. rewrite Hbad.
  destruct (negb (Zone.type_valid _)); simpl; eexists; split; reflexivity.
Qed.

(** What [createZone] can do: answer 400 or 500 and leave the store
    alone, or answer 201 and add the new document, whose [properties]
    are the schema default. *)
Lemma createZone_cases (newId : ObjectId) (now : string) (b : CreateBody)
    (st : Store) :
  ((Routes.createZone newId now b st).1 = st
   /\ (status (Routes.createZone newId now b st).2 = 400%nat
       \/ status (Routes.createZone newId now b st).2 = 500%nat)
   /\ success (body (Routes.createZone newId now b st).2) = false)
  \/ (exists g,
        let z := Collection.new newId now (trim (str_of (body_name b))) g in
        body_geometry b = Some g
        /\ Routes.createZone newId now b st
           = (<[newId := z]> st, Json 201 (ZoneResult "Zone created successfully" z))
        /\ st !! newId = None
        /\ Zone.validator (coordinates g) = true).
Proof.
  unfold Routes.createZone.
  destruct (body_geometry b) as [g|]; [|left; simpl; auto].
  destruct (negb (truthy (body_name b))); [left; simpl; auto|].
  destruct (negb (String.eqb (typeof (body_name b)) "string") || _);
    [left; simpl; auto|].
  destruct (Collection.save _ st) as [st' [u|e]] eqn:Hsave.
  - apply save_ok_inserts in Hsave as (-> & Hfree & Hvalid).
    right. exists g. simpl in *. auto.
  - apply save_throw_keeps_store in Hsave as ->.
    left. destruct (String.eqb (err_name e) "ValidationError"); simpl; auto.
Qed.

(** C1: a creation request whose outer ring has fewer than four vertices,
    or whose first and last vertex differ in a coordinate, is answered
    400 and stores nothing (when the name is in order, the 400 is the
    caught ValidationError); a closed ring of four or more vertices
    passes the coordinates validator. *)
Theorem create_validates_outer_ring (newId : ObjectId) (now : string)
    (b : CreateBody) (st : Store) (r : ring) :
  outer_ring b = Some r ->
  ((length r < 4)%nat \/ closed r = false ->
     (Routes.createZone newId now b st).1 = st
     /\ status (Routes.createZone newId now b st).2 = 400%nat
     /\ success (body (Routes.createZone newId now b st).2) = false
     /\ (name_ok (body_name b) = true ->
         exists detail,
           body (Routes.createZone newId now b st).2
           = Failure "Invalid zone data" (Some detail)))
  /\ ((4 <= length r)%nat /\ closed r = true ->
      forall g, body_geometry b = Some g ->
                Zone.validator (coordinates g) = true).
Proof.
  unfold outer_ring. intros Hring.
  destruct (body_geometry b) as [g|] eqn:Hg; [|discriminate].
  destruct (coordinates g) as [cs|] eqn:Hcs; [|discriminate].
  split.
  - intros Hbad. unfold Routes.createZone, name_ok. rewrite Hg.
    destruct (truthy (body_name b)); simpl;
      [|repeat split; auto; discriminate].
    destruct (String.eqb (typeof (body_name b)) "string"); simpl;
      [|repeat split; auto; discriminate].
    destruct (String.length _ =? 0)%nat; simpl;
      [repeat split; auto; discriminate|].
    destruct (save_invalid_ring
                (Collection.new newId now (trim (str_of (body_name b))) g) st)
      as (e & -> & ->).
    { simpl. rewrite Hcs. by apply (validator_rejects cs r). }
    simpl. repeat split; eauto.
  - intros [Hlen Hclosed] g' [= <-]. rewrite Hcs.
    by apply (validator_accepts cs r).
Qed.

Lemma route_keeps_properties_empty (rq : Routes.request) (st : Store) :
  (forall oid z, st !! oid = Some z -> Zone.properties z = ∅) ->
  forall oid z, (Routes.route rq st).1 !! oid = Some z -> Zone.properties z = ∅.
Proof.
  intros Hinv oid z. destruct rq as [newId now b| |q|b|q|id]; simpl.
  - destruct (createZone_cases newId now b st) as [(-> & _)|(g & _ & -> & _)];
      [apply Hinv|].
    simpl. destruct (decide (newId = oid)) as [->|Hne].
    + rewrite lookup_insert_eq. by intros [= <-].
    + rewrite lookup_insert_ne by done. apply Hinv.
  - unfold Routes.listZones, Collection.find.
    destruct (runFind _ st); apply Hinv.
  - unfold Routes.nearby, Collection.find.
    destruct (_ || _); [apply Hinv|]. destruct (runFind _ st); apply Hinv.
  - unfold Routes.checkLocation, Collection.find.
    destruct (_ || _); [apply Hinv|]. destruct (runFind _ st); apply Hinv.
  - unfold Routes.within, Collection.find.
    destruct (_ || _); [apply Hinv|]. destruct (runFind _ st); apply Hinv.
  - unfold Routes.deleteZone, Collection.findByIdAndDelete.
    destruct (castObjectId id) as [k|]; simpl; [|apply Hinv].
    destruct (st !! k) eqn:Hk; simpl; [|apply Hinv].
    intros Hz. apply (Hinv oid). by apply lookup_delete_Some in Hz as [_ ?].
Qed.

Lemma serve_keeps_properties_empty (rs : list Routes.request) (st : Store) :
  (forall oid z, st !! oid = Some z -> Zone.properties z = ∅) ->
  forall oid z, Routes.serve rs st !! oid = Some z -> Zone.properties z = ∅.
Proof.
  revert st. induction rs as [|rq rs IH]; intros st Hinv; simpl; [done|].
  apply IH. by apply route_keeps_properties_empty.
Qed.

(** C9: a zone stored by [createZone] has empty [properties], whatever
    the request carried under that key, and so has every zone of every
    store the API can reach. *)
Theorem created_zones_have_empty_properties :
  (forall newId now b st,
      status (Routes.createZone newId now b st).2 = 201%nat ->
      exists z,
        (Routes.createZone newId now b st).1 = <[newId := z]> st
        /\ body (Routes.createZone newId now b st).2
           = ZoneResult "Zone created successfully" z
        /\ Zone.properties z = ∅)
  /\ (forall newId now nm g p p' st,
         Routes.createZone newId now
           {| body_name := nm; body_geometry := g; body_properties := p |} st
         = Routes.createZone newId now
             {| body_name := nm; body_geometry := g; body_properties := p' |} st)
  /\ (forall st, Routes.reachable st ->
                 forall oid z, st !! oid = Some z -> Zone.properties z = ∅).
Proof.
  split; [|split].
  - intros newId now b st H201.
    destruct (createZone_cases newId now b st)
      as [(_ & [H4|H5] & _)|(g & _ & -> & _)]; [congruence|congruence|].
    eexists. simpl. auto.
  - reflexivity.
  - intros st [rs <-]. apply serve_keeps_properties_empty.
    intros oid z. by rewrite lookup_empty.
Qed.

End ZoneStore.

(** ** Queries by point *)

Lemma zero_is_falsy (v : value) : is_zero v = true -> truthy v = false.
Proof. destruct v; simpl; try discriminate. by intros ->. Qed.

Lemma query_value_truthy (v : value) : from_query v -> truthy v = negb (missing v).
Proof. destruct v; simpl; done. Qed.

Section PointQueries.
Context {P : Platform}.

(** C3, as the code has it: [nearby] answers 400 exactly when [lat] or
    [lng] is absent or empty; every other request, numeric or not, goes
    to the proximity query, and the answer is 200 with the zones found,
    or 500 when the server raises. *)
Theorem nearby_rejects_only_missing (q : NearbyQuery) (st : Store) :
  from_query (q_lat q) -> from_query (q_lng q) ->
  (status (Routes.nearby q st).2 = 400%nat
   <-> missing (q_lat q) = true \/ missing (q_lng q) = true)
  /\ (missing (q_lat q) = false -> missing (q_lng q) = false ->
      Routes.nearby q st
      = (st, match runFind (near_filter q) st with
             | Ok zones => Json 200 (ZoneList (length zones) zones)
             | Throw e =>
                 Json 500 (Failure "Failed to find nearby zones" (Routes.detail e))
             end)).
Proof.
  intros Hlat Hlng. unfold Routes.nearby, Collection.find, near_filter.
  rewrite (query_value_truthy _ Hlat), (query_value_truthy _ Hlng), !negb_involutive.
  destruct (missing (q_lat q)), (missing (q_lng q)); simpl;
    try (split; [split; auto | discriminate]).
  split.
  - destruct (runFind _ st); simpl; split; try discriminate; intros [?|?]; discriminate.
  - intros _ _. by destruct (runFind _ st).
Qed.

(** A point with truthy coordinates that no stored zone contains is
    reported safe. *)
Lemma check_safe (b : CheckBody) (st : Store) :
  truthy (c_lat b) = true -> truthy (c_lng b) = true ->
  runFind (FIntersectsPoint (parseFloat (c_lng b)) (parseFloat (c_lat b))) st = Ok [] ->
  Routes.checkLocation b st
  = (st, Json 200 (CheckResult false [] "Location is safe")).
Proof.
  intros Hlat Hlng Hnone. unfold Routes.checkLocation, Collection.find.
  by rewrite Hlat, Hlng, Hnone.
Qed.

(** C10: a check request whose [lat] or [lng] is the number zero is
    answered 400, with the message for missing coordinates. *)
Theorem check_rejects_zero_coordinate (b : CheckBody) (st : Store) :
  is_zero (c_lat b) = true \/ is_zero (c_lng b) = true ->
  Routes.checkLocation b st
  = (st, Json 400 (Failure "Latitude and longitude are required" None)).
Proof.
  intros Hzero. unfold Routes.checkLocation.
  destruct Hzero as [Hz|Hz]; rewrite (zero_is_falsy _ Hz); simpl;
    [done | by rewrite orb_true_r].
Qed.

End PointQueries.

(** ** Deletion *)

Section Deletion.
Context {P : Platform}.

(** C5: deleting a stored zone twice returns the record the first time
    and 404 the second time; after the first call the zone is gone. *)
Theorem delete_twice (id : string) (oid : ObjectId) (z : Zone.doc) (st : Store) :
  castObjectId id = Some oid ->
  st !! oid = Some z ->
  Routes.deleteZone id st
  = (delete oid st, Json 200 (ZoneResult "Zone deleted successfully" z))
  /\ (Routes.deleteZone id st).1 !! oid = None
  /\ Routes.deleteZone id (Routes.deleteZone id st).1
     = (delete oid st, Json 404 (Failure "Zone not found" None)).
Proof.
  intros Hcast Hz.
  assert (Routes.deleteZone id st
          = (delete oid st, Json 200 (ZoneResult "Zone deleted successfully" z)))
    as Hfirst.
  { unfold Routes.deleteZone, Collection.findByIdAndDelete.
    by rewrite Hcast, Hz. }
  rewrite Hfirst. simpl. split; [done|]. split; [apply lookup_delete_eq|].
  unfold Routes.deleteZone, Collection.findByIdAndDelete.
  by rewrite Hcast, lookup_delete_eq.
Qed.

(** C7: an id that does not cast to an ObjectId is answered 400, and a
    404 is only ever given for an id that casts and names no stored
    zone. *)
Theorem delete_malformed_id (id : string) (st : Store) :
  (castObjectId id = None ->
   Routes.deleteZone id st
   = (st, Json 400 (Failure "Invalid zone ID format" None)))
  /\ (status (Routes.deleteZone id st).2 = 404%nat ->
      exists oid, castObjectId id = Some oid /\ st !! oid = None).
Proof.
  unfold Routes.deleteZone, Collection.findByIdAndDelete. split.
  - by intros ->.
  - destruct (castObjectId id) as [oid|]; simpl; [|discriminate].
    destruct (st !! oid) eqn:Hoid; simpl; [discriminate|]. eauto.
Qed.

End Deletion.

(** ** The alert relay *)

Lemma io_emit_lookup (event : string) (a : Socket.admin_alert)
    (io : Socket.Server) (t : Socket.SocketId) :
  Socket.io_emit event a io !! t
  = (fun sent => (sent ++ [Socket.Packet event a])%list) <$> io !! t.
Proof. unfold Socket.io_emit. apply lookup_fmap. Qed.

Lemma get_carried (data : value) (k : string) :
  data <> VUndefined -> data <> VNull -> get data k = Ok (carried data k).
Proof. destruct data; simpl; congruence. Qed.

(** A payload that can be read is broadcast in normalised form. *)
Lemma listener_emits (now : string) (data : value) (io : Socket.Server) :
  data <> VUndefined -> data <> VNull ->
  Socket.on_mobile_danger_alert now data io
  = Ok (Socket.io_emit "admin_alert" (normalised now data) io).
Proof.
  intros Hu Hn. unfold Socket.on_mobile_danger_alert, Socket.alert_of.
  by rewrite !get_carried.
Qed.

(** A payload of [undefined] or [null] makes the listener throw before
    anything is emitted. *)
Lemma alert_without_payload_throws (now : string) (io : Socket.Server) :
  (exists e, Socket.on_mobile_danger_alert now VUndefined io = Throw e
             /\ err_name e = "TypeError")
  /\ (exists e, Socket.on_mobile_danger_alert now VNull io = Throw e
                /\ err_name e = "TypeError").
Proof. split; eexists; split; reflexivity. Qed.

(** C6, as the code has it: a payload other than [undefined] and [null]
    is never rejected; the event carries the given message when it is
    truthy and the sentinel otherwise, the given location when it is
    truthy and [null] otherwise, the server's time and severity
    [critical]. *)
Theorem publish_normalises_payload (now : string) (data : value)
    (io : Socket.Server) :
  data <> VUndefined -> data <> VNull ->
  exists a,
    Socket.on_mobile_danger_alert now data io
    = Ok (Socket.io_emit "admin_alert" a io)
    /\ Socket.message a = (if truthy (carried data "message")
                           then carried data "message" else sentinel)
    /\ Socket.location a = (if truthy (carried data "location")
                            then carried data "location" else VNull)
    /\ Socket.timestamp a = now
    /\ Socket.severity a = "critical".
Proof.
  intros Hu Hn. exists (normalised now data).
  split; [by apply listener_emits|]. simpl. auto.
Qed.

(** C2, as the code has it: an alert (with a payload other than
    [undefined] and [null]) arriving from a connected socket is sent,
    once, to every connected socket, the sender included, and to no one
    else. *)
Theorem alert_reaches_every_connection (io : Socket.Server)
    (s : Socket.SocketId) (now : string) (data : value) :
  Socket.connected io s -> data <> VUndefined -> data <> VNull ->
  exists a io',
    Socket.receive s "mobile_danger_alert" now data io = Ok io'
    /\ (forall t sent, io !! t = Some sent ->
          io' !! t = Some (sent ++ [Socket.Packet "admin_alert" a])%list)
    /\ (exists sent, io !! s = Some sent
          /\ io' !! s = Some (sent ++ [Socket.Packet "admin_alert" a])%list)
    /\ (forall t, io !! t = None -> io' !! t = None).
Proof.
  intros [sent Hs] Hu Hn.
  exists (normalised now data),
         (Socket.io_emit "admin_alert" (normalised now data) io).
  unfold Socket.receive. rewrite Hs. simpl.
  split; [by apply listener_emits|].
  assert (forall t sent', io !! t = Some sent' ->
            Socket.io_emit "admin_alert" (normalised now data) io !! t
            = Some (sent' ++ [Socket.Packet "admin_alert" (normalised now data)])%list)
    as Hall.
  { intros t sent' Ht. by rewrite io_emit_lookup, Ht. }
  split; [exact Hall|]. split; [eauto|].
  intros t Ht. by rewrite io_emit_lookup, Ht.
Qed.

(** ** The area of a ring *)

(** The loop, started at the end of [pre], walks the consecutive pairs of
    what follows. *)
Lemma area_loop_suffix (pre suf : ring) (acc : float) :
  Zone.area_loop (pre ++ suf) (length pre) (length suf - 1) acc
  = fold_left (fun s pq => (s + Zone.cross pq.1 pq.2)%float)
      (consecutive suf) acc.
Proof.
  revert pre acc. induction suf as [|p suf IH]; intros pre acc; [reflexivity|].
  destruct suf as [|q rest]; [reflexivity|].
  replace (length (p :: q :: rest) - 1)%nat with (S (length rest)) by (simpl; lia).
  cbn [Zone.area_loop consecutive tail zip zip_with fold_left fst snd].
  assert (Zone.at_index (pre ++ p :: q :: rest) (length pre) = p) as ->.
  { unfold Zone.at_index. by rewrite list_lookup_middle. }
  assert (Zone.at_index (pre ++ p :: q :: rest) (S (length pre)) = q) as ->.
  { unfold Zone.at_index.
    replace (pre ++ p :: q :: rest) with ((pre ++ [p]) ++ q :: rest)
      by (by rewrite <- app_assoc).
    rewrite list_lookup_middle; [done|]. rewrite length_app. simpl. lia. }
  specialize (IH (pre ++ [p]) (acc + Zone.cross p q)%float).
  rewrite <- app_assoc, length_app in IH. simpl in IH.
  rewrite Nat.add_1_r, Nat.sub_0_r in IH. exact IH.
Qed.

Lemma polygonArea_shoelace (r : ring) : Zone.polygonArea r = shoelace r.
Proof.
  unfold Zone.polygonArea, shoelace, shoelace_sum.
  by rewrite <- (area_loop_suffix [] r).
Qed.

Lemma abs_never_negative (x : float) : (abs x <? 0)%float = false.
Proof.
  rewrite ltb_spec, abs_spec.
  change (Prim2SF 0) with (S754_zero false).
  by destruct (Prim2SF x) as [s|s| |s m e].
Qed.

Lemma abs_nan_or_at_least_zero (x : float) :
  is_nan (abs x) = true \/ (0 <=? abs x)%float = true.
Proof.
  unfold is_nan. rewrite leb_spec, FloatAxioms.eqb_spec, abs_spec.
  change (Prim2SF 0) with (S754_zero false).
  destruct (Prim2SF x) as [s|s| |s m e]; cbn; auto.
Qed.

(** C8, as the code has it: the area is the shoelace formula evaluated in
    double arithmetic, in vertex order; it is never below zero: it is at
    least zero, or NaN when the arithmetic yields NaN. *)
Theorem polygonArea_is_shoelace_never_negative (r : ring) :
  Zone.polygonArea r = shoelace r
  /\ (Zone.polygonArea r <? 0)%float = false
  /\ (is_nan (Zone.polygonArea r) = true
      \/ (0 <=? Zone.polygonArea r)%float = true).
Proof.
  split; [apply polygonArea_shoelace|].
  unfold Zone.polygonArea.
  split; [apply abs_never_negative | apply abs_nan_or_at_least_zero].
Qed.

(** * The handlers on concrete requests *)

Import Examples.

(** The open square is refused with a ValidationError and nothing is
    stored; the closed square passes the validator. *)
Lemma create_validates_outer_ring_witness :
  ((Routes.createZone (P := Double.platform) id_a created_at (zone_a open_square) ∅).1
   = ∅
   /\ status
        (Routes.createZone (P := Double.platform) id_a created_at (zone_a open_square) ∅).2
      = 400%nat
   /\ exists detail,
        body (Routes.createZone (P := Double.platform) id_a created_at
                (zone_a open_square) ∅).2
        = Failure "Invalid zone data" (Some detail))
  /\ Zone.validator (coordinates (polygon square)) = true.
Proof.
  split.
  - destruct (create_validates_outer_ring (P := Double.platform) id_a created_at
                (zone_a open_square) ∅ open_square eq_refl) as [Hbad _].
    destruct (Hbad (or_intror eq_refl)) as (Hstore & Hstatus & _ & Hbody).
    split; [exact Hstore|]. split; [exact Hstatus|]. apply Hbody. reflexivity.
  - destruct (create_validates_outer_ring (P := Double.platform) id_a created_at
                (zone_a square) ∅ square eq_refl) as [_ Hgood].
    apply (Hgood (conj (le_S _ _ (le_n 4)) eq_refl) (polygon square) eq_refl).
Defined.

(** The scenario of the specification: a point inside Zone A, and one
    outside every zone. *)
Example check_inside_zone_a :
  (Routes.checkLocation (P := Double.platform)
     {| c_lat := VNum 0.5; c_lng := VNum 0.5 |} one_zone).2
  = Json 200 (CheckResult true [stored_a] "Warning: Inside 1 danger zone(s)").
Proof. reflexivity. Qed.

Example check_outside_every_zone :
  (Routes.checkLocation (P := Double.platform)
     {| c_lat := VNum 5; c_lng := VNum 5 |} one_zone).2
  = Json 200 (CheckResult false [] "Location is safe").
Proof. reflexivity. Qed.

(** Creating Zone A in the empty store stores it without the [risk]
    property of the request. *)
Lemma created_zones_have_empty_properties_witness :
  (exists z,
      (Routes.createZone (P := Double.platform) id_a created_at (zone_a square) ∅).1
      = <[id_a := z]> ∅
      /\ body (Routes.createZone (P := Double.platform) id_a created_at (zone_a square) ∅).2
         = ZoneResult "Zone created successfully" z
      /\ Zone.properties z = ∅)
  /\ (forall oid z,
         Routes.serve (P := Double.platform)
           [Routes.PostZone id_a created_at (zone_a square)] ∅ !! oid = Some z ->
         Zone.properties z = ∅).
Proof.
  destruct (created_zones_have_empty_properties (P := Double.platform)) as (Hnew & _ & Hall).
  split.
  - apply (Hnew id_a created_at (zone_a square) ∅). reflexivity.
  - apply (Hall (Routes.serve (P := Double.platform)
                   [Routes.PostZone id_a created_at (zone_a square)] ∅)).
    exists [Routes.PostZone id_a created_at (zone_a square)]. reflexivity.
Defined.

Lemma nearby_rejects_only_missing_witness :
  (status (Routes.nearby (P := Double.platform) readme_nearby one_zone).2 = 400%nat
   <-> missing (q_lat readme_nearby) = true \/ missing (q_lng readme_nearby) = true)
  /\ (missing (q_lat readme_nearby) = false ->
      missing (q_lng readme_nearby) = false ->
      Routes.nearby (P := Double.platform) readme_nearby one_zone
      = (one_zone,
         match runFind (Platform := Double.platform) (near_filter (P := Double.platform) readme_nearby) one_zone with
         | Ok zones => Json 200 (ZoneList (length zones) zones)
         | Throw e =>
             Json 500 (Failure "Failed to find nearby zones" (Routes.detail (P := Double.platform) e))
         end)).
Proof. exact (nearby_rejects_only_missing (P := Double.platform) readme_nearby one_zone I I). Defined.

(** C3 as written fails: [lat=abc] is not numeric, and is answered 500 by
    the double (the query reaches the server), not 400. *)
Lemma nearby_passes_non_numeric_text :
  absent_or_non_numeric (P := Double.platform) (VStr "abc") = true
  /\ status (Routes.nearby (P := Double.platform)
               {| q_lat := VStr "abc"; q_lng := VStr "1"; q_maxDistance := VUndefined |}
               ∅).2 = 500%nat
  /\ ~ nearby_rejects_non_numeric.
Proof.
  split; [reflexivity|]. split; [reflexivity|].
  intros Hclaim.
  destruct (Hclaim Double.platform
              {| q_lat := VStr "abc"; q_lng := VStr "1"; q_maxDistance := VUndefined |}
              ∅) as [[_ Hbad] _].
  assert (500 = 400)%nat as Habsurd; [|discriminate Habsurd].
  apply Hbad. left. reflexivity.
Qed.

(** C4 at latitude zero: the point (lng 5, lat 0) lies in no stored zone,
    and the check is answered 400 instead of "safe". *)
Lemma check_on_the_equator :
  Double.runFind (FIntersectsPoint 5 0) one_zone = Ok []
  /\ Routes.checkLocation (P := Double.platform) {| c_lat := VNum 0; c_lng := VNum 5 |} one_zone
     = (one_zone, Json 400 (Failure "Latitude and longitude are required" None)).
Proof. split; reflexivity. Qed.

Lemma check_rejects_zero_coordinate_witness :
  Routes.checkLocation (P := Double.platform) {| c_lat := VNum 12.9716; c_lng := VNum (-0) |} one_zone
  = (one_zone, Json 400 (Failure "Latitude and longitude are required" None)).
Proof.
  apply (check_rejects_zero_coordinate (P := Double.platform)). right. reflexivity.
Defined.

Lemma delete_twice_witness :
  Routes.deleteZone (P := Double.platform) id_text one_zone
  = (delete id_a one_zone, Json 200 (ZoneResult "Zone deleted successfully" stored_a))
  /\ (Routes.deleteZone (P := Double.platform) id_text one_zone).1 !! id_a = None
  /\ Routes.deleteZone (P := Double.platform) id_text (Routes.deleteZone (P := Double.platform) id_text one_zone).1
     = (delete id_a one_zone, Json 404 (Failure "Zone not found" None)).
Proof.
  exact (delete_twice (P := Double.platform) id_text id_a stored_a one_zone eq_refl eq_refl).
Defined.

Lemma delete_malformed_id_witness :
  Routes.deleteZone (P := Double.platform) "not-an-id" one_zone
  = (one_zone, Json 400 (Failure "Invalid zone ID format" None))
  /\ exists oid, castObjectId (Platform := Double.platform) id_text = Some oid
                 /\ (∅ : Store) !! oid = None.
Proof.
  split.
  - apply (delete_malformed_id (P := Double.platform) "not-an-id" one_zone). reflexivity.
  - apply (delete_malformed_id (P := Double.platform) id_text ∅). reflexivity.
Defined.

Lemma publish_normalises_payload_witness :
  exists a,
    Socket.on_mobile_danger_alert created_at empty_message two_sockets
    = Ok (Socket.io_emit "admin_alert" a two_sockets)
    /\ Socket.message a = (if truthy (carried empty_message "message")
                           then carried empty_message "message" else sentinel)
    /\ Socket.location a = (if truthy (carried empty_message "location")
                            then carried empty_message "location" else VNull)
    /\ Socket.timestamp a = created_at
    /\ Socket.severity a = "critical".
Proof.
  apply (publish_normalises_payload created_at empty_message two_sockets);
    discriminate.
Defined.

(** C6 as written fails: the empty message is given, and the event
    carries the sentinel instead. *)
Lemma empty_message_is_replaced :
  carried empty_message "message" = VStr ""
  /\ Socket.alert_of created_at empty_message
     = Ok (normalised created_at empty_message)
  /\ Socket.message (normalised created_at empty_message) = sentinel
  /\ ~ publishes_whatever_the_shape.
Proof.
  split; [reflexivity|]. split; [reflexivity|]. split; [reflexivity|].
  intros Hclaim.
  destruct (Hclaim created_at empty_message two_sockets)
    as (a & Hpub & Hmsg & _).
  rewrite listener_emits in Hpub by discriminate.
  apply (f_equal (fun o => match o with
                           | Ok io => io !! "admin-1"
                           | Throw _ => None
                           end)) in Hpub.
  rewrite !io_emit_lookup in Hpub.
  change (two_sockets !! "admin-1") with (Some ([] : list Socket.packet)) in Hpub.
  simpl in Hpub. injection Hpub as <-.
  discriminate Hmsg.
Qed.

Lemma alert_reaches_every_connection_witness :
  exists a io',
    Socket.receive "mobile-1" "mobile_danger_alert" created_at test_alert two_sockets
    = Ok io'
    /\ (forall t sent, two_sockets !! t = Some sent ->
          io' !! t = Some (sent ++ [Socket.Packet "admin_alert" a]))
    /\ (exists sent, two_sockets !! "mobile-1" = Some sent
          /\ io' !! "mobile-1" = Some (sent ++ [Socket.Packet "admin_alert" a]))
    /\ (forall t, two_sockets !! t = None -> io' !! t = None).
Proof.
  apply (alert_reaches_every_connection two_sockets "mobile-1" created_at test_alert);
    [by exists [] | discriminate | discriminate].
Defined.

(** C2 as written fails: the sender of the test alert receives it too. *)
Lemma sender_receives_its_own_alert :
  (exists io',
      Socket.receive "mobile-1" "mobile_danger_alert" created_at test_alert two_sockets
      = Ok io'
      /\ io' !! "mobile-1"
         = Some [Socket.Packet "admin_alert" (normalised created_at test_alert)])
  /\ ~ fans_out_to_others_only.
Proof.
  split.
  { eexists. split; [reflexivity|]. rewrite io_emit_lookup. reflexivity. }
  intros Hclaim.
  destruct (Hclaim two_sockets "mobile-1" created_at test_alert)
    as (a & io' & Hrecv & _ & Hsender); [by exists []|].
  unfold Socket.receive in Hrecv.
  change (two_sockets !! "mobile-1") with (Some ([] : list Socket.packet))
    in Hrecv, Hsender.
  simpl in Hrecv. rewrite listener_emits in Hrecv by discriminate.
  injection Hrecv as <-.
  rewrite io_emit_lookup in Hsender.
  change (two_sockets !! "mobile-1") with (Some ([] : list Socket.packet)) in Hsender.
  discriminate Hsender.
Qed.

(** C8 as written fails: on the far ring the products overflow, the sum
    is NaN, and NaN is not at least zero. *)
Lemma far_ring_area_is_nan :
  Zone.validator (Some [far_ring]) = true
  /\ is_nan (Zone.polygonArea far_ring) = true
  /\ (0 <=? Zone.polygonArea far_ring)%float = false
  /\ ~ area_is_shoelace_and_at_least_zero.
Proof.
  split; [reflexivity|]. split; [reflexivity|]. split; [reflexivity|].
  intros Hclaim. destruct (Hclaim far_ring) as [_ Hpos].
  vm_compute in Hpos. discriminate Hpos.
Qed.


(** * Further properties of the code *)

(** ** The router as a whole *)

Section Router.
Context {P : Platform}.

Lemma find_keeps_store (f : geo_filter) (st : Store) :
  (Collection.find f st).1 = st.
Proof. reflexivity. Qed.

(** What [deleteZone] can do. *)
Lemma deleteZone_cases (id : string) (st : Store) :
  (castObjectId id = None
   /\ Routes.deleteZone id st
      = (st, Json 400 (Failure "Invalid zone ID format" None)))
  \/ (exists oid, castObjectId id = Some oid /\ st !! oid = None
        /\ Routes.deleteZone id st = (st, Json 404 (Failure "Zone not found" None)))
  \/ (exists oid z, castObjectId id = Some oid /\ st !! oid = Some z
        /\ Routes.deleteZone id st
           = (delete oid st, Json 200 (ZoneResult "Zone deleted successfully" z))).
Proof.
  unfold Routes.deleteZone, Collection.findByIdAndDelete.
  destruct (castObjectId id) as [oid|]; simpl; [|by left].
  destruct (st !! oid) as [z|] eqn:Hoid; simpl; right; [right|left]; eauto.
Qed.

(** The four reading handlers answer 200, 400 or 500 and leave the store
    alone. *)
Lemma readers_keep_store (rq : Routes.request) (st : Store) :
  match rq with
  | Routes.PostZone _ _ _ | Routes.DeleteZone _ => True
  | _ =>
      (Routes.route rq st).1 = st
      /\ ((status (Routes.route rq st).2 = 200%nat
           /\ success (body (Routes.route rq st).2) = true)
          \/ ((status (Routes.route rq st).2 = 400%nat
               \/ status (Routes.route rq st).2 = 500%nat)
              /\ success (body (Routes.route rq st).2) = false))
  end.
Proof.
  destruct rq as [newId now b| |q|b|q|id]; simpl; try done.
  - unfold Routes.listZones, Collection.find.
    destruct (runFind _ st); simpl; auto.
  - unfold Routes.nearby, Collection.find.
    destruct (_ || _); simpl; [auto|]. destruct (runFind _ st); simpl; auto.
  - unfold Routes.checkLocation, Collection.find.
    destruct (_ || _); simpl; [auto|]. destruct (runFind _ st); simpl; auto.
  - unfold Routes.within, Collection.find.
    destruct (_ || _); simpl; [auto|]. destruct (runFind _ st); simpl; auto.
Qed.

(** X1: a request changes the store only when it is a creation answered
    201, which adds one document under a fresh key, or a deletion
    answered 200, which removes the one document named. *)
Theorem store_changes_only_on_success (rq : Routes.request) (st : Store) :
  (Routes.route rq st).1 = st
  \/ (exists newId now b z,
        rq = Routes.PostZone newId now b /\ st !! newId = None
        /\ Routes.route rq st
           = (<[newId := z]> st, Json 201 (ZoneResult "Zone created successfully" z)))
  \/ (exists id oid z,
        rq = Routes.DeleteZone id /\ castObjectId id = Some oid
        /\ st !! oid = Some z
        /\ Routes.route rq st
           = (delete oid st, Json 200 (ZoneResult "Zone deleted successfully" z))).
Proof.
  pose proof (readers_keep_store rq st) as Hread.
  destruct rq as [newId now b| |q|b|q|id]; try (left; apply Hread).
  - simpl. destruct (createZone_cases newId now b st)
      as [(Hst & _)|(g & _ & Hrun & Hfree & _)]; [by left|].
    right; left. eauto 10.
  - simpl. destruct (deleteZone_cases id st)
      as [(_ & ->)|[(oid & _ & _ & ->)|(oid & z & Hc & Hz & Hrun)]];
      [by left|by left|].
    right; right. eauto 10.
Qed.

(** X4: the [success] flag of every answer agrees with its status, and
    the status is one of 200, 201, 400, 404 and 500. *)
Theorem success_flag_agrees_with_status (rq : Routes.request) (st : Store) :
  success (body (Routes.route rq st).2)
  = (status (Routes.route rq st).2 <? 300)%nat
  /\ status (Routes.route rq st).2 ∈ [200; 201; 400; 404; 500]%nat.
Proof.
  assert (forall r : Response,
             (status r = 200%nat /\ success (body r) = true)
             \/ (status r = 201%nat /\ success (body r) = true)
             \/ ((status r = 400%nat \/ status r = 404%nat \/ status r = 500%nat)
                 /\ success (body r) = false) ->
             success (body r) = (status r <? 300)%nat
             /\ status r ∈ [200; 201; 400; 404; 500]%nat) as Hshape.
  { intros r [(-> & ->)|[(-> & ->)|([->|[->| ->]] & ->)]];
      (split; [reflexivity|apply list_elem_of_In; simpl; auto 10]). }
  apply Hshape.
  pose proof (readers_keep_store rq st) as Hread.
  destruct rq as [newId now b| |q|b|q|id];
    try (destruct Hread as (_ & [?|([?|?] & ?)]); by auto 10).
  - simpl. destruct (createZone_cases newId now b st)
      as [(_ & [?|?] & ?)|(g & _ & -> & _)]; simpl; auto 10.
  - simpl. destruct (deleteZone_cases id st)
      as [(_ & ->)|[(oid & _ & _ & ->)|(oid & z & _ & _ & ->)]]; simpl; auto 10.
Qed.

(** X2: a zone that was created can be deleted again, and the store is
    then as it was before the creation. *)
Theorem create_then_delete (newId : ObjectId) (now : string) (b : CreateBody)
    (st : Store) (id : string) :
  status (Routes.createZone newId now b st).2 = 201%nat ->
  castObjectId id = Some newId ->
  exists z,
    body (Routes.createZone newId now b st).2
    = ZoneResult "Zone created successfully" z
    /\ Routes.deleteZone id (Routes.createZone newId now b st).1
       = (st, Json 200 (ZoneResult "Zone deleted successfully" z)).
Proof.
  intros H201 Hcast.
  destruct (createZone_cases newId now b st)
    as [(_ & [H4|H5] & _)|(g & _ & Hrun & Hfree & _)]; [congruence|congruence|].
  rewrite Hrun. eexists. split; [reflexivity|]. simpl.
  unfold Routes.deleteZone, Collection.findByIdAndDelete.
  rewrite Hcast, lookup_insert_eq. simpl.
  by rewrite delete_insert_eq, delete_id.
Qed.

(** X3: a creation is answered 201 exactly when the name is a non-blank
    string, the geometry is a Polygon whose coordinates pass the
    validator, the index takes the geometry and the key is free; the
    document stored then has the name trimmed, the geometry as given,
    no properties, and both timestamps equal. *)
Theorem create_succeeds_exactly_when (newId : ObjectId) (now : string)
    (b : CreateBody) (st : Store) :
  (status (Routes.createZone newId now b st).2 = 201%nat
   <-> name_ok (body_name b) = true
       /\ exists g, body_geometry b = Some g
                    /\ Zone.type_valid (type g) = true
                    /\ Zone.validator (coordinates g) = true
                    /\ indexable g = true
                    /\ st !! newId = None)
  /\ (forall g, body_geometry b = Some g ->
        status (Routes.createZone newId now b st).2 = 201%nat ->
        (Routes.createZone newId now b st).1 !! newId
        = Some {| Zone._id := newId;
                  Zone.name := trim (trim (str_of (body_name b)));
                  Zone.geometry := g;
                  Zone.properties := ∅;
                  Zone.createdAt := now;
                  Zone.updatedAt := now |}).
Proof.
  unfold Routes.createZone, name_ok, Collection.save, Zone.validate.
  destruct (body_geometry b) as [g|]; simpl.
  2:{ split; [split; [discriminate|by intros (_ & g & [=] & _)]|by intros g [=]]. }
  destruct (truthy (body_name b)); simpl.
  2:{ split; [split; [discriminate|by intros ([=] & _)]|by intros g' _ [=]]. }
  destruct (String.eqb (typeof (body_name b)) "string"); simpl.
  2:{ split; [split; [discriminate|by intros ([=] & _)]|by intros g' _ [=]]. }
  destruct (String.length _ =? 0)%nat; simpl.
  { split; [split; [discriminate|by intros ([=] & _)]|by intros g' _ [=]]. }
  destruct (Zone.type_valid (type g)) eqn:Htype; simpl.
  2:{ split; [split; [discriminate|]|by intros g' _ [=]].
      intros (_ & g' & [= <-] & ? & _). congruence. }
  destruct (Zone.validator (coordinates g)) eqn:Hvalid; simpl.
  2:{ split; [split; [discriminate|]|by intros g' _ [=]].
      intros (_ & g' & [= <-] & _ & ? & _). congruence. }
  destruct (indexable g) eqn:Hindex; simpl.
  2:{ split; [split; [discriminate|]|by intros g' _ [=]].
      intros (_ & g' & [= <-] & _ & _ & ? & _). congruence. }
  destruct (st !! newId) eqn:Hfree; simpl.
  { split; [split; [discriminate|]|by intros g' _ [=]].
    by intros (_ & g' & [= <-] & _ & _ & _ & [=]). }
  split.
  - split; [|done]. intros _. split; [done|]. by exists g.
  - intros g' [= <-] _. by rewrite lookup_insert_eq.
Qed.

(** X5: in production no 500 answer carries the text of the error that
    caused it. *)
Theorem production_hides_error_detail (rq : Routes.request) (st : Store) :
  isProduction = true ->
  status (Routes.route rq st).2 = 500%nat ->
  exists message,
    body (Routes.route rq st).2 = Failure message (Some "Internal server error").
Proof.
  intros Hprod.
  destruct rq as [newId now b| |q|b|q|id]; simpl.
  - unfold Routes.createZone.
    destruct (body_geometry b); [|discriminate].
    destruct (negb _); [discriminate|]. destruct (_ || _); [discriminate|].
    destruct (Collection.save _ st) as [st' [u|e]]; [discriminate|].
    destruct (String.eqb _ _); [discriminate|].
    unfold Routes.detail. rewrite Hprod. eauto.
  - unfold Routes.listZones, Collection.find.
    destruct (runFind _ st); [discriminate|].
    unfold Routes.detail. rewrite Hprod. eauto.
  - unfold Routes.nearby, Collection.find.
    destruct (_ || _); [discriminate|]. destruct (runFind _ st); [discriminate|].
    unfold Routes.detail. rewrite Hprod. eauto.
  - unfold Routes.checkLocation, Collection.find.
    destruct (_ || _); [discriminate|]. destruct (runFind _ st); [discriminate|].
    unfold Routes.detail. rewrite Hprod. eauto.
  - unfold Routes.within, Collection.find.
    destruct (_ || _); [discriminate|]. destruct (runFind _ st); [discriminate|].
    unfold Routes.detail. rewrite Hprod. eauto.
  - unfold Routes.deleteZone.
    destruct (Collection.findByIdAndDelete id st) as [st' [[z|]|e]];
      [discriminate|discriminate|].
    destruct (String.eqb _ _); [discriminate|].
    unfold Routes.detail. rewrite Hprod. eauto.
Qed.

(** X6: [within] answers 400 exactly when one of the four bounds is
    absent or empty; otherwise the box from (minLng, minLat) to (maxLng,
    maxLat) goes to the server, and the answer is 200 with the zones
    found, or 500 when the server raises. *)
Theorem within_rejects_only_missing (q : WithinQuery) (st : Store) :
  from_query (q_minLat q) -> from_query (q_minLng q) ->
  from_query (q_maxLat q) -> from_query (q_maxLng q) ->
  (status (Routes.within q st).2 = 400%nat
   <-> missing (q_minLat q) = true \/ missing (q_minLng q) = true
       \/ missing (q_maxLat q) = true \/ missing (q_maxLng q) = true)
  /\ (missing (q_minLat q) = false -> missing (q_minLng q) = false ->
      missing (q_maxLat q) = false -> missing (q_maxLng q) = false ->
      Routes.within q st
      = (st, match runFind (FWithinBox (parseFloat (q_minLng q))
                              (parseFloat (q_minLat q))
                              (parseFloat (q_maxLng q))
                              (parseFloat (q_maxLat q))) st with
             | Ok zones => Json 200 (ZoneList (length zones) zones)
             | Throw e =>
                 Json 500 (Failure "Failed to find zones within area"
                             (Routes.detail e))
             end)).
Proof.
  intros H1 H2 H3 H4. unfold Routes.within, Collection.find.
  rewrite (query_value_truthy _ H1), (query_value_truthy _ H2),
    (query_value_truthy _ H3), (query_value_truthy _ H4), !negb_involutive.
  destruct (missing (q_minLat q)), (missing (q_minLng q)),
    (missing (q_maxLat q)), (missing (q_maxLng q)); simpl;
    try (split; [split; auto 6 | discriminate]).
  split.
  - destruct (runFind _ st); simpl; split; try discriminate;
      intros [?|[?|[?|?]]]; discriminate.
  - intros _ _ _ _. by destruct (runFind _ st).
Qed.

(** X7: in every answer of the check that reports zones, the zones are
    the ones the server returned for the point, [isInDangerZone] is true
    exactly when there is one, and the message counts them. *)
Theorem check_answer_is_consistent (b : CheckBody) (st : Store)
    (flag : bool) (zones : list Zone.doc) (message : string) :
  body (Routes.checkLocation b st).2 = CheckResult flag zones message ->
  status (Routes.checkLocation b st).2 = 200%nat
  /\ runFind (FIntersectsPoint (parseFloat (c_lng b)) (parseFloat (c_lat b))) st
     = Ok zones
  /\ (flag = true <-> zones <> [])
  /\ message = (if flag
                then "Warning: Inside " +:+ pretty (length zones) +:+ " danger zone(s)"
                else "Location is safe").
Proof.
  unfold Routes.checkLocation, Collection.find.
  destruct (_ || _); [discriminate|].
  destruct (runFind _ st) as [zs|e]; [|discriminate].
  simpl. intros [= <- <- <-]. split; [done|]. split; [done|].
  split; [|done]. destruct zs; simpl; naive_solver.
Qed.

End Router.

(** ** The rate limiter *)

Section Limiter.
Context {P : Platform}.
Import RateLimit.

Lemma max_requests_positive : (1 <= MAX_REQUESTS)%nat.
Proof. unfold MAX_REQUESTS. destruct isProduction; lia. Qed.

(** Inside its window a request is counted, or refused once the count has
    reached the limit. *)
Lemma middleware_in_window (ip : string) (now : Z) (m : Counts) (r : record) :
  m !! ip = Some r -> (now <= resetTime r)%Z ->
  middleware ip now m
  = if (MAX_REQUESTS <=? count r)%nat then (m, Some too_many)
    else (<[ip := {| count := S (count r); resetTime := resetTime r |}]> m, None).
Proof.
  intros Hr Hnow. unfold middleware. rewrite Hr.
  replace (resetTime r <? now)%Z with false; [done|].
  symmetry. apply Z.ltb_ge. lia.
Qed.

Lemma middleware_other (ip ip' : string) (now : Z) (m : Counts) :
  ip' <> ip -> (middleware ip' now m).1 !! ip = m !! ip.
Proof.
  intros Hne. unfold middleware.
  destruct (m !! ip') as [r|]; simpl; [|by rewrite lookup_insert_ne].
  destruct (resetTime r <? now)%Z; simpl; [by rewrite lookup_insert_ne|].
  destruct (MAX_REQUESTS <=? count r)%nat; simpl; [done|].
  by rewrite lookup_insert_ne.
Qed.

(** The verdict on an address, and its record afterwards, depend on its
    own record only. *)
Lemma middleware_own (ip : string) (now : Z) (m1 m2 : Counts) :
  m1 !! ip = m2 !! ip ->
  (middleware ip now m1).2 = (middleware ip now m2).2
  /\ (middleware ip now m1).1 !! ip = (middleware ip now m2).1 !! ip.
Proof.
  intros Hsame. unfold middleware. rewrite <- Hsame.
  destruct (m1 !! ip) as [r|] eqn:Hr; simpl; [|by rewrite !lookup_insert_eq].
  destruct (resetTime r <? now)%Z; simpl; [by rewrite !lookup_insert_eq|].
  destruct (MAX_REQUESTS <=? count r)%nat; simpl; [by rewrite <- Hsame|].
  by rewrite !lookup_insert_eq.
Qed.

Lemma burst_in_window (ip : string) (times : list Z) (m : Counts) (r : record) :
  m !! ip = Some r ->
  Forall (fun t => (t <= resetTime r)%Z) times ->
  (burst ip times m).2
  = replicate (min (length times) (MAX_REQUESTS - count r)) None
    ++ replicate (length times - (MAX_REQUESTS - count r)) (Some too_many).
Proof.
  revert m r. induction times as [|t times IH]; intros m r Hr Hin; [done|].
  apply Forall_cons in Hin as [Ht Hin]. simpl.
  rewrite (middleware_in_window ip t m r Hr Ht).
  destruct (Nat.leb_spec MAX_REQUESTS (count r)) as [Hfull|Hroom].
  - specialize (IH m r Hr Hin). destruct (burst ip times m) as [m' vs].
    simpl in *. rewrite IH.
    replace (MAX_REQUESTS - count r)%nat with 0%nat by lia.
    by rewrite !Nat.min_0_r, !Nat.sub_0_r.
  - specialize (IH (<[ip := {| count := S (count r); resetTime := resetTime r |}]> m)
                  {| count := S (count r); resetTime := resetTime r |}
                  (lookup_insert_eq _ _ _) Hin).
    destruct (burst ip times _) as [m' vs]. simpl in *. rewrite IH.
    replace (MAX_REQUESTS - count r)%nat with (S (MAX_REQUESTS - S (count r))) by lia.
    done.
Qed.

(** X8: of the requests an address makes within one window, counted from
    its first request, the first [MAX_REQUESTS] pass and all later ones
    are answered 429. *)
Theorem burst_admits_at_most_max (ip : string) (t0 : Z) (later : list Z)
    (m : Counts) :
  m !! ip = None ->
  Forall (fun t => (t <= t0 + RATE_LIMIT_WINDOW)%Z) later ->
  (burst ip (t0 :: later) m).2
  = replicate (min (S (length later)) MAX_REQUESTS) None
    ++ replicate (S (length later) - MAX_REQUESTS) (Some too_many).
Proof.
  intros Hfresh Hin. pose proof max_requests_positive.
  replace (min (S (length later)) MAX_REQUESTS)
    with (S (min (length later) (MAX_REQUESTS - 1))) by lia.
  replace (S (length later) - MAX_REQUESTS)%nat
    with (length later - (MAX_REQUESTS - 1))%nat by lia.
  cbn [burst]. unfold middleware at 1. rewrite Hfresh.
  pose proof (burst_in_window ip later
                (<[ip := {| count := 1; resetTime := t0 + RATE_LIMIT_WINDOW |}]> m)
                {| count := 1; resetTime := t0 + RATE_LIMIT_WINDOW |}
                (lookup_insert_eq _ _ _) Hin) as Hrest.
  destruct (burst ip later _) as [m' vs]. cbn [snd count] in *.
  by rewrite Hrest.
Qed.

Lemma run_others_keep_record (ip : string) (es : list tick) (m : Counts) :
  Forall (fun e => match e with
                   | Request ip' _ => ip' <> ip
                   | Sweep _ => False
                   end) es ->
  run es m !! ip = m !! ip.
Proof.
  revert m. induction es as [|e es IH]; intros m Hothers; [done|].
  apply Forall_cons in Hothers as [He Hothers]. simpl.
  rewrite (IH _ Hothers). destruct e as [ip' now|now]; [|done].
  by apply middleware_other.
Qed.

(** X9: what other addresses request has no effect on the verdict an
    address gets, nor on its record. *)
Theorem other_clients_do_not_interfere (ip : string) (now : Z)
    (es : list tick) (m : Counts) :
  Forall (fun e => match e with
                   | Request ip' _ => ip' <> ip
                   | Sweep _ => False
                   end) es ->
  (middleware ip now (run es m)).2 = (middleware ip now m).2
  /\ (middleware ip now (run es m)).1 !! ip = (middleware ip now m).1 !! ip.
Proof.
  intros Hothers. apply middleware_own. by apply run_others_keep_record.
Qed.

(** X10: requests refused at the limit change nothing, and the first
    request after the window is over passes and opens a new window. *)
Theorem refused_client_recovers (ip : string) (times : list Z) (now : Z)
    (m : Counts) (r : record) :
  m !! ip = Some r ->
  (MAX_REQUESTS <= count r)%nat ->
  Forall (fun t => (t <= resetTime r)%Z) times ->
  (resetTime r < now)%Z ->
  burst ip times m = (m, replicate (length times) (Some too_many))
  /\ middleware ip now m
     = (<[ip := {| count := 1; resetTime := now + RATE_LIMIT_WINDOW |}]> m, None).
Proof.
  intros Hr Hfull Hin Hlate. split.
  - induction times as [|t times IH]; [done|].
    apply Forall_cons in Hin as [Ht Hin]. simpl.
    rewrite (middleware_in_window ip t m r Hr Ht).
    replace (MAX_REQUESTS <=? count r)%nat with true
      by (symmetry; by apply Nat.leb_le).
    by rewrite (IH Hin).
  - unfold middleware. rewrite Hr.
    replace (resetTime r <? now)%Z with true; [done|].
    symmetry. by apply Z.ltb_lt.
Qed.

(** X11: the cleanup timer is invisible: a request made at or after a
    sweep gets the verdict and the record it would have got without the
    sweep. *)
Theorem cleanup_is_invisible (ip : string) (t now : Z) (m : Counts) :
  (t <= now)%Z ->
  (middleware ip now (cleanup t m)).2 = (middleware ip now m).2
  /\ (middleware ip now (cleanup t m)).1 !! ip = (middleware ip now m).1 !! ip.
Proof.
  intros Hmono. destruct (m !! ip) as [r|] eqn:Hr.
  - destruct (decide (resetTime r < t)%Z) as [Hold|Hlive].
    + assert (cleanup t m !! ip = None) as Hgone.
      { apply map_lookup_filter_None. right. intros x Hx. simpl.
        rewrite Hr in Hx. injection Hx as <-. tauto. }
      unfold middleware. rewrite Hgone, Hr.
      replace (resetTime r <? now)%Z with true
        by (symmetry; apply Z.ltb_lt; lia).
      simpl. by rewrite !lookup_insert_eq.
    + apply middleware_own. rewrite Hr.
      by apply map_lookup_filter_Some.
  - apply middleware_own. rewrite Hr.
    apply map_lookup_filter_None. by left.
Qed.

Lemma step_keeps_counts_bounded (e : tick) (m : Counts) :
  (forall ip r, m !! ip = Some r -> (1 <= count r <= MAX_REQUESTS)%nat) ->
  forall ip r, step e m !! ip = Some r -> (1 <= count r <= MAX_REQUESTS)%nat.
Proof.
  intros Hinv ip r. pose proof max_requests_positive.
  destruct e as [ip' now|now]; simpl.
  - unfold middleware. destruct (m !! ip') as [r'|] eqn:Hr'; simpl.
    + destruct (resetTime r' <? now)%Z; simpl.
      * destruct (decide (ip' = ip)) as [->|Hne].
        -- rewrite lookup_insert_eq. intros [= <-]. simpl. lia.
        -- rewrite lookup_insert_ne by done. apply Hinv.
      * destruct (Nat.leb_spec MAX_REQUESTS (count r')); simpl; [apply Hinv|].
        destruct (decide (ip' = ip)) as [->|Hne].
        -- rewrite lookup_insert_eq. intros [= <-]. simpl. lia.
        -- rewrite lookup_insert_ne by done. apply Hinv.
    + destruct (decide (ip' = ip)) as [->|Hne].
      * rewrite lookup_insert_eq. intros [= <-]. simpl. lia.
      * rewrite lookup_insert_ne by done. apply Hinv.
  - intros Hkept. apply map_lookup_filter_Some in Hkept as [Hkept _].
    by apply (Hinv ip).
Qed.

(** X12: whatever requests and sweeps came before, every record counts
    at least one request and never more than the limit. *)
Theorem counts_stay_within_limit (es : list tick) (ip : string) (r : record) :
  run es ∅ !! ip = Some r -> (1 <= count r <= MAX_REQUESTS)%nat.
Proof.
  assert (forall m : Counts,
             (forall ip r, m !! ip = Some r -> (1 <= count r <= MAX_REQUESTS)%nat) ->
             forall ip r, run es m !! ip = Some r ->
                          (1 <= count r <= MAX_REQUESTS)%nat) as Hrun.
  { induction es as [|e es IH]; intros m Hinv; [exact Hinv|].
    simpl. apply IH. by apply step_keeps_counts_bounded. }
  apply Hrun. intros ip' r'. by rewrite lookup_empty.
Qed.

End Limiter.

(** ** Connecting to the database *)

Section Connecting.
Import Startup.

(** X13: when the first [retries + 1] attempts all fail, [connectDB]
    makes exactly that many attempts, sleeps five seconds between two of
    them, and ends by exiting with code 1. *)
Theorem connectDB_gives_up (retries : nat) (attempt : nat -> option string)
    (k : nat) :
  (forall j, (j <= retries)%nat -> attempt (k + j)%nat <> None) ->
  attempts (connectDB retries attempt k) = S retries
  /\ slept (connectDB retries attempt k) = (5000 * Z.of_nat retries)%Z
  /\ last (connectDB retries attempt k) = Some (Exit 1).
Proof.
  revert k. induction retries as [|retries IH]; intros k Hfail.
  - simpl. pose proof (Hfail 0%nat (le_n _)) as H0.
    rewrite Nat.add_0_r in H0. by destruct (attempt k).
  - pose proof (Hfail 0%nat (Nat.le_0_l _)) as H0. rewrite Nat.add_0_r in H0.
    destruct (IH (S k)) as (Ha & Hs & Hl).
    { intros j Hj. replace (S k + j)%nat with (k + S j)%nat by lia.
      apply Hfail. lia. }
    cbn [connectDB]. destruct (attempt k) as [msg|]; [|done].
    cbn [attempts slept]. rewrite Ha, Hs, !last_cons, Hl.
    repeat split; lia.
Qed.

(** X14: when the first attempt to succeed is the [j]-th retry, with
    [j] at most [retries], [connectDB] stops there: it has made [j + 1]
    attempts and slept [j] times, and the process does not exit. *)
Theorem connectDB_connects (retries : nat) (attempt : nat -> option string)
    (k j : nat) :
  (j <= retries)%nat ->
  attempt (k + j)%nat = None ->
  (forall i, (i < j)%nat -> attempt (k + i)%nat <> None) ->
  attempts (connectDB retries attempt k) = S j
  /\ slept (connectDB retries attempt k) = (5000 * Z.of_nat j)%Z
  /\ last (connectDB retries attempt k) = Some (Connect true)
  /\ forall code, Exit code ∉ connectDB retries attempt k.
Proof.
  revert retries k. induction j as [|j IH]; intros retries k Hle Hup Hdown.
  - rewrite Nat.add_0_r in Hup. destruct retries; simpl; rewrite Hup;
      (repeat split; [done..|]); intros code Hin;
      by apply list_elem_of_singleton in Hin.
  - destruct retries as [|retries]; [lia|].
    pose proof (Hdown 0%nat (Nat.lt_0_succ _)) as H0. rewrite Nat.add_0_r in H0.
    destruct (IH retries (S k)) as (Ha & Hs & Hl & He).
    { lia. }
    { by replace (S k + j)%nat with (k + S j)%nat by lia. }
    { intros i Hi. replace (S k + i)%nat with (k + S i)%nat by lia.
      apply Hdown. lia. }
    cbn [connectDB]. destruct (attempt k) as [msg|]; [|done].
    cbn [attempts slept]. rewrite Ha, Hs, !last_cons, Hl.
    repeat split; [lia|].
    intros code Hin. apply (He code).
    apply elem_of_cons in Hin as [[=]|Hin].
    apply elem_of_cons in Hin as [[=]|Hin].
    by apply elem_of_cons in Hin as [[=]|Hin].
Qed.

End Connecting.

(** ** The health probe *)


(** ** Runs of socket events *)




(** X17: the [message] of a broadcast alert is never falsy (never empty,
    zero, [null] or [undefined]), and its [location] is a truthy value
    or [null]. *)
Theorem alert_message_is_never_falsy (now : string) (data : value)
    (a : Socket.admin_alert) :
  Socket.alert_of now data = Ok a ->
  truthy (Socket.message a) = true
  /\ (Socket.location a = VNull \/ truthy (Socket.location a) = true).
Proof.
  unfold Socket.alert_of.
  destruct (get data "message") as [m|]; [|discriminate].
  destruct (get data "location") as [l|]; [|discriminate].
  intros [= <-]. simpl. unfold or_else. split.
  - by destruct (truthy m) eqn:Hm.
  - destruct (truthy l) eqn:Hl; auto.
Qed.

(** ** The zone model at its edges *)

Lemma cross_first_two (p q : vertex) :
  Zone.cross (take 2 p) (take 2 q) = Zone.cross p q.
Proof. by destruct p as [|? [|? ?]], q as [|? [|? ?]]. Qed.

Lemma at_index_first_two (r : ring) (i : nat) :
  Zone.at_index (take 2 <$> r) i = take 2 (Zone.at_index r i).
Proof.
  unfold Zone.at_index. rewrite list_lookup_fmap. by destruct (r !! i).
Qed.

Lemma same_point_first_two (p q : vertex) :
  same_point (take 2 p) (take 2 q) = same_point p q.
Proof. by destruct p as [|? [|? ?]], q as [|? [|? ?]]. Qed.

(** X18: coordinates after the second one (an altitude, say) affect
    neither the validator nor the area. *)
Theorem third_coordinate_is_ignored (r : ring) (rest : list ring) :
  Zone.polygonArea (take 2 <$> r) = Zone.polygonArea r
  /\ Zone.validator (Some ((take 2 <$> r) :: rest))
     = Zone.validator (Some (r :: rest)).
Proof.
  split.
  - assert (forall todo i acc,
               Zone.area_loop (take 2 <$> r) i todo acc
               = Zone.area_loop r i todo acc) as Hloop.
    { induction todo as [|todo IH]; intros i acc; [done|].
      cbn [Zone.area_loop].
      by rewrite IH, !at_index_first_two, cross_first_two. }
    unfold Zone.polygonArea. by rewrite length_fmap, Hloop.
  - rewrite (validator_outer_ring ((take 2 <$> r) :: rest) (take 2 <$> r) eq_refl),
      (validator_outer_ring (r :: rest) r eq_refl), length_fmap.
    f_equal. unfold closed. rewrite fmap_last.
    destruct r as [|p r]; [done|]. simpl.
    destruct (last (p :: r)); simpl; [|done]. apply same_point_first_two.
Qed.


(** * The further properties on concrete inputs *)

Import MoreExamples.

Lemma create_then_delete_witness :
  exists z,
    body (Routes.createZone (P := Double.platform) id_a created_at (zone_a square) ∅).2
    = ZoneResult "Zone created successfully" z
    /\ Routes.deleteZone (P := Double.platform) id_text
         (Routes.createZone (P := Double.platform) id_a created_at (zone_a square) ∅).1
       = (∅, Json 200 (ZoneResult "Zone deleted successfully" z)).
Proof.
  apply (create_then_delete (P := Double.platform)); reflexivity.
Defined.

Lemma create_succeeds_exactly_when_witness :
  status (Routes.createZone (P := Double.platform) id_a created_at (zone_a square) ∅).2
  = 201%nat
  /\ (Routes.createZone (P := Double.platform) id_a created_at (zone_a square) ∅).1
     !! id_a = Some stored_a.
Proof.
  destruct (create_succeeds_exactly_when (P := Double.platform)
              id_a created_at (zone_a square) ∅) as [Hiff Hdoc].
  assert (status (Routes.createZone (P := Double.platform) id_a created_at
                    (zone_a square) ∅).2 = 201%nat) as H201.
  { apply Hiff. split; [reflexivity|].
    exists (polygon square). repeat split; reflexivity. }
  split; [exact H201|]. exact (Hdoc (polygon square) eq_refl H201).
Defined.

Lemma production_hides_error_detail_witness :
  exists message,
    body (Routes.route (P := production) (Routes.GetNearby text_query) ∅).2
    = Failure message (Some "Internal server error").
Proof.
  apply (production_hides_error_detail (P := production)); reflexivity.
Defined.

Lemma within_rejects_only_missing_witness :
  Routes.within (P := Double.platform) bounding_box one_zone
  = (one_zone, Json 200 (ZoneList 1 [stored_a])).
Proof.
  destruct (within_rejects_only_missing (P := Double.platform)
              bounding_box one_zone I I I I) as [_ Hrun].
  exact (Hrun eq_refl eq_refl eq_refl eq_refl).
Defined.

Lemma check_answer_is_consistent_witness :
  status (Routes.checkLocation (P := Double.platform)
            {| c_lat := VNum 0.5; c_lng := VNum 0.5 |} one_zone).2 = 200%nat
  /\ Double.runFind (FIntersectsPoint 0.5 0.5) one_zone = Ok [stored_a]
  /\ (true = true <-> [stored_a] <> [])
  /\ "Warning: Inside 1 danger zone(s)" = "Warning: Inside 1 danger zone(s)".
Proof.
  apply (check_answer_is_consistent (P := Double.platform)
           {| c_lat := VNum 0.5; c_lng := VNum 0.5 |} one_zone
           true [stored_a] "Warning: Inside 1 danger zone(s)").
  reflexivity.
Defined.

(** In production the hundred-and-first request of a window is the first
    to be refused. *)
Lemma burst_admits_at_most_max_witness :
  (RateLimit.burst (P := production) "10.0.0.1" (0%Z :: flood) ∅).2
  = replicate 100 None ++ [Some RateLimit.too_many].
Proof.
  apply (burst_admits_at_most_max (P := production) "10.0.0.1" 0 flood ∅);
    [reflexivity|].
  apply Forall_replicate. discriminate.
Defined.

Lemma other_clients_do_not_interfere_witness :
  (RateLimit.middleware (P := production) "10.0.0.1" 10
     (RateLimit.run (P := production) neighbours busy)).2
  = (RateLimit.middleware (P := production) "10.0.0.1" 10 busy).2
  /\ (RateLimit.middleware (P := production) "10.0.0.1" 10
        (RateLimit.run (P := production) neighbours busy)).1 !! "10.0.0.1"
     = (RateLimit.middleware (P := production) "10.0.0.1" 10 busy).1 !! "10.0.0.1".
Proof.
  apply (other_clients_do_not_interfere (P := production)).
  repeat constructor; discriminate.
Defined.

Lemma refused_client_recovers_witness :
  RateLimit.burst (P := production) "10.0.0.1" [10; 20]%Z at_limit
  = (at_limit, [Some RateLimit.too_many; Some RateLimit.too_many])
  /\ RateLimit.middleware (P := production) "10.0.0.1" 60001 at_limit
     = (<["10.0.0.1" := {| RateLimit.count := 1; RateLimit.resetTime := 120001 |}]>
          at_limit, None).
Proof.
  apply (refused_client_recovers (P := production) "10.0.0.1" [10; 20]%Z 60001
           at_limit {| RateLimit.count := 100; RateLimit.resetTime := 60000 |});
    [reflexivity | apply le_n | repeat constructor; discriminate | reflexivity].
Defined.

Lemma cleanup_is_invisible_witness :
  (RateLimit.middleware (P := production) "10.0.0.1" 70001
     (RateLimit.cleanup 70000 busy)).2
  = (RateLimit.middleware (P := production) "10.0.0.1" 70001 busy).2
  /\ (RateLimit.middleware (P := production) "10.0.0.1" 70001
        (RateLimit.cleanup 70000 busy)).1 !! "10.0.0.1"
     = (RateLimit.middleware (P := production) "10.0.0.1" 70001 busy).1 !! "10.0.0.1".
Proof.
  apply (cleanup_is_invisible (P := production)). discriminate.
Defined.

Lemma counts_stay_within_limit_witness :
  (1 <= 2 <= RateLimit.MAX_REQUESTS (P := production))%nat.
Proof.
  apply (counts_stay_within_limit (P := production)
           [RateLimit.Request "10.0.0.1" 0; RateLimit.Request "10.0.0.1" 1;
            RateLimit.Sweep 5]
           "10.0.0.1"
           {| RateLimit.count := 2; RateLimit.resetTime := 60000 |}).
  reflexivity.
Defined.

Lemma connectDB_gives_up_witness :
  Startup.attempts (Startup.start never_up) = 6%nat
  /\ Startup.slept (Startup.start never_up) = 25000%Z
  /\ last (Startup.start never_up) = Some (Startup.Exit 1).
Proof.
  apply (connectDB_gives_up 5 never_up 0). intros j _. discriminate.
Defined.

Lemma connectDB_connects_witness :
  Startup.attempts (Startup.start third_time_lucky) = 3%nat
  /\ Startup.slept (Startup.start third_time_lucky) = 10000%Z
  /\ last (Startup.start third_time_lucky) = Some (Startup.Connect true)
  /\ forall code, Startup.Exit code ∉ Startup.start third_time_lucky.
Proof.
  apply (connectDB_connects 5 third_time_lucky 0 2);
    [lia | reflexivity |].
  intros [|[|i]] Hi; [discriminate | discriminate | lia].
Defined.


Lemma alert_message_is_never_falsy_witness :
  truthy (Socket.message (normalised created_at empty_message)) = true
  /\ (Socket.location (normalised created_at empty_message) = VNull
      \/ truthy (Socket.location (normalised created_at empty_message)) = true).
Proof.
  apply (alert_message_is_never_falsy created_at empty_message). reflexivity.
Defined.

